(** * razorpay_integration: the gateway client of [api/razorpay_payment.py]

    A shallow embedding of [RazorpayPayment] and [handle_api_response],
    with the parts of the Python standard library they call
    ([hashlib.sha256], [hmac.new], [hmac.compare_digest]).

    Conventions.
    - A Python [str] is a [string] holding its UTF-8 encoding, so
      [bytes(s, "utf-8")] is the list of bytes of [s] and [+] on [str] is
      [++].  A [str] is ASCII-only when all of its bytes are below 128.
    - A Python [int] is a [Z]; a [bytes] value is a [list byte].
    - Calls that leave the process ([requests.get], [requests.post], the
      SDK's [payment.fetch] and [payment.refund]) are recorded in the
      [world] and answered by an arbitrary [gateway].
    - [frappe._] looks a message up in the translations of the site; the
      model keeps the source-language message, as [frappe._] does when no
      translation is registered. *)

From Stdlib Require Import ZArith NArith List Bool Lia.
From Stdlib.Strings Require Import String Ascii Byte.
Import ListNotations.

#[local] Set Warnings "-register-all".

Local Open Scope string_scope.
Local Open Scope list_scope.

(* ================================================================== *)
(** ** SHA-256 (FIPS 180-4), on 32-bit words held in [N] *)

Module SHA256.
Local Open Scope N_scope.

Definition w32 (x : N) : N := x mod 2 ^ 32.
Definition add32 (x y : N) : N := w32 (x + y).
Definition not32 (x : N) : N := N.lxor x (2 ^ 32 - 1).
Definition rotr (n x : N) : N :=
  N.lor (N.shiftr x n) (w32 (N.shiftl x (32 - n))).

Definition Ch (x y z : N) : N := N.lxor (N.land x y) (N.land (not32 x) z).
Definition Maj (x y z : N) : N :=
  N.lxor (N.lxor (N.land x y) (N.land x z)) (N.land y z).
Definition Sigma0 (x : N) : N := N.lxor (N.lxor (rotr 2 x) (rotr 13 x)) (rotr 22 x).
Definition Sigma1 (x : N) : N := N.lxor (N.lxor (rotr 6 x) (rotr 11 x)) (rotr 25 x).
Definition sigma0 (x : N) : N := N.lxor (N.lxor (rotr 7 x) (rotr 18 x)) (N.shiftr x 3).
Definition sigma1 (x : N) : N := N.lxor (N.lxor (rotr 17 x) (rotr 19 x)) (N.shiftr x 10).

(** The constants are the ones FIPS 180-4 describes: the first 32 bits of
    the fractional parts of the square roots (initial hash value) and of
    the cube roots (round constants) of the first primes. *)
Definition is_prime (p : N) : bool :=
  (1 <? p) && forallb (fun d => negb (p mod d =? 0))
                      (map N.of_nat (seq 2 (N.to_nat p - 2))).

Definition primes_below (n : nat) : list N :=
  filter is_prime (map N.of_nat (seq 0 n)).

Fixpoint cbrt_bits (bits : nat) (n r : N) : N :=
  match bits with
  | O => r
  | S b =>
      let c := r + 2 ^ N.of_nat b in
      cbrt_bits b n (if c * c * c <=? n then c else r)
  end.

Definition cbrt (n : N) : N := cbrt_bits 40 n 0.

Definition K : list N :=
  Eval vm_compute in map (fun p => w32 (cbrt (p * 2 ^ 96))) (primes_below 312).

Definition H0 : list N :=
  Eval vm_compute in map (fun p => w32 (N.sqrt (p * 2 ^ 64))) (primes_below 20).

(** Big-endian conversions. *)
Fixpoint be_bytes (n : nat) (x : N) : list N :=
  match n with
  | O => []
  | S m => (N.shiftr x (8 * N.of_nat m)) mod 256 :: be_bytes m x
  end.

Definition be_word (bs : list N) : N :=
  fold_left (fun acc b => acc * 256 + b) bs 0.

Fixpoint chunks {A} (size fuel : nat) (l : list A) : list (list A) :=
  match fuel with
  | O => []
  | S f =>
      match l with
      | [] => []
      | _ => firstn size l :: chunks size f (skipn size l)
      end
  end.

(** Padding: a [1] bit, zeros up to 56 modulo 64 bytes, the bit length on
    64 bits. *)
Definition pad (msg : list N) : list N :=
  let len := N.of_nat (List.length msg) in
  let zeros := N.to_nat ((119 - len mod 64) mod 64) in
  msg ++ 128 :: repeat 0 zeros ++ be_bytes 8 (8 * len).

(** The message schedule, newest word first. *)
Fixpoint schedule (n : nat) (rev_w : list N) : list N :=
  match n with
  | O => rev_w
  | S m =>
      let w :=
        add32 (add32 (sigma1 (nth 1 rev_w 0)) (nth 6 rev_w 0))
              (add32 (sigma0 (nth 14 rev_w 0)) (nth 15 rev_w 0)) in
      schedule m (w :: rev_w)
  end.

Definition state := (N * N * N * N * N * N * N * N)%type.

Definition round (s : state) (kw : N * N) : state :=
  let '(a, b, c, d, e, f, g, h) := s in
  let '(k, w) := kw in
  let t1 := add32 (add32 (add32 h (Sigma1 e)) (add32 (Ch e f g) k)) w in
  let t2 := add32 (Sigma0 a) (Maj a b c) in
  (add32 t1 t2, a, b, c, add32 d t1, e, f, g).

Definition compress (s : state) (block : list N) : state :=
  let w := rev (schedule 48 (rev (map be_word (chunks 4 16 block)))) in
  let '(a, b, c, d, e, f, g, h) := fold_left round (combine K w) s in
  let '(a0, b0, c0, d0, e0, f0, g0, h0) := s in
  (add32 a0 a, add32 b0 b, add32 c0 c, add32 d0 d,
   add32 e0 e, add32 f0 f, add32 g0 g, add32 h0 h).

Definition init : state :=
  (nth 0 H0 0, nth 1 H0 0, nth 2 H0 0, nth 3 H0 0,
   nth 4 H0 0, nth 5 H0 0, nth 6 H0 0, nth 7 H0 0).

Definition hash (msg : list N) : list N :=
  let padded := pad msg in
  let '(a, b, c, d, e, f, g, h) :=
    fold_left compress (chunks 64 (List.length padded) padded) init in
  flat_map (be_bytes 4) [a; b; c; d; e; f; g; h].

End SHA256.

(* ================================================================== *)
(** ** [bytes], [hashlib.sha256] and hexadecimal digests *)

Definition bytes := list byte.

(** [bytes(s, "utf-8")] *)
Definition utf8 (s : string) : bytes := list_byte_of_string s.

Definition byte_of_N (n : N) : byte :=
  match Byte.of_N n with Some b => b | None => x00 end.

(** [hashlib.sha256(data).digest()] *)
Definition sha256 (data : bytes) : bytes :=
  map byte_of_N (SHA256.hash (map Byte.to_N data)).

Definition hex_digit (n : N) : ascii :=
  nth (N.to_nat n) (list_ascii_of_string "0123456789abcdef") "0"%char.

(** [bytes.hex()], in lower case as [hexdigest] gives it *)
Fixpoint hex (bs : bytes) : string :=
  match bs with
  | [] => ""
  | b :: rest =>
      String (hex_digit (Byte.to_N b / 16))
             (String (hex_digit (Byte.to_N b mod 16)) (hex rest))
  end.

(* ================================================================== *)
(** ** [hmac.new(key, msg, digestmod=hashlib.sha256)], as [Lib/hmac.py] *)

Module Hmac.

Definition xor_byte (c : N) (b : byte) : byte := byte_of_N (N.lxor (Byte.to_N b) c).

(** [bytes((x ^ 0x5C) for x in range(256))] and its [0x36] twin *)
Definition trans_5C : bytes :=
  map (fun x => byte_of_N (N.lxor (N.of_nat x) 92)) (seq 0 256).
Definition trans_36 : bytes :=
  map (fun x => byte_of_N (N.lxor (N.of_nat x) 54)) (seq 0 256).

(** [bytes.translate(table)] *)
Definition translate (table data : bytes) : bytes :=
  map (fun b => nth (N.to_nat (Byte.to_N b)) table x00) data.

(** [bytes.ljust(width, b"\0")] *)
Definition ljust (width : nat) (data : bytes) : bytes :=
  if Nat.leb width (List.length data) then data
  else data ++ repeat x00 (width - List.length data).

Definition blocksize : nat := 64.

(** A hash object is the data it has been fed; an [HMAC] object holds the
    inner and the outer one. *)
Record HMAC := { _inner : bytes; _outer : bytes }.

Definition update (h : HMAC) (msg : bytes) : HMAC :=
  {| _inner := _inner h ++ msg; _outer := _outer h |}.

Definition new (key msg : bytes) : HMAC :=
  let key := if Nat.ltb blocksize (List.length key) then sha256 key else key in
  let key := ljust blocksize key in
  update {| _inner := translate trans_36 key; _outer := translate trans_5C key |} msg.

Definition digest (h : HMAC) : bytes := sha256 (_outer h ++ sha256 (_inner h)).

Definition hexdigest (h : HMAC) : string := hex (digest h).

End Hmac.

(** The reference: HMAC as RFC 2104 defines it,
    [H((K0 xor opad) || H((K0 xor ipad) || text))] with [H] SHA-256,
    [ipad] the byte [0x36] and [opad] the byte [0x5C] repeated, and [K0]
    the key (hashed first when longer than a block) filled with zeros up
    to the block length of 64 bytes. *)
Definition rfc2104_key (key : bytes) : bytes :=
  let k := if Nat.leb (List.length key) 64 then key else sha256 key in
  k ++ repeat x00 (64 - List.length k).

Definition rfc2104_hmac_sha256 (key text : bytes) : bytes :=
  let k0 := rfc2104_key key in
  sha256 (map (Hmac.xor_byte 92) k0 ++ sha256 (map (Hmac.xor_byte 54) k0 ++ text)).

(** [str.isascii()] *)
Definition isascii (s : string) : bool :=
  forallb (fun c => N.ltb (N_of_ascii c) 128) (list_ascii_of_string s).

(* ================================================================== *)
(** ** Python values, exceptions and the outside world *)

(** The values that travel as JSON (floats are not needed here). A
    [dict] keeps its items in order; a key is looked up from the front. *)
Inductive pyval :=
| PyNone
| PyBool (b : bool)
| PyInt (z : Z)
| PyStr (s : string)
| PyList (l : list pyval)
| PyDict (d : list (string * pyval)).

(** Truth value testing. *)
Definition truthy (v : pyval) : bool :=
  match v with
  | PyNone => false
  | PyBool b => b
  | PyInt z => negb (z =? 0)%Z
  | PyStr s => negb (s =? "")
  | PyList l => match l with [] => false | _ => true end
  | PyDict d => match d with [] => false | _ => true end
  end.

Fixpoint lookup (k : string) (d : list (string * pyval)) : option pyval :=
  match d with
  | [] => None
  | (k', v) :: rest => if k =? k' then Some v else lookup k rest
  end.

(** The exceptions that occur: [frappe.throw] raises
    [frappe.ValidationError]; the others are Python's own, and whatever
    [requests] or the SDK raise (all of them subclasses of [Exception]). *)
Inductive exn :=
| ValidationError (msg : string)
| TypeError (msg : string)
| AttributeError (msg : string)
| JSONDecodeError
| ExternalError (cls msg : string).

Inductive result (A : Type) :=
| Return (a : A)
| Raise (e : exn).
Arguments Return {A} a.
Arguments Raise {A} e.

(** [Auth = namedtuple("Auth", ["api_key", "api_secret"])] *)
Record Auth := { api_key : string; api_secret : string }.

(** [tuple(self.auth)] *)
Definition tuple (a : Auth) : string * string := (api_key a, api_secret a).

(** [razorpay.Client(auth=(key, secret))] *)
Record Client := { client_auth : string * string }.

(** [partial(f, ...)]: a call to [requests] or to the SDK, with its
    arguments, not made yet. *)
Inductive partial :=
| requests_get (url : string) (auth : string * string)
               (headers : list (string * string))
| requests_post (url : string) (auth : string * string) (json : pyval)
                (headers : list (string * string))
| payment_fetch (client : Client) (payment_id : string)
| payment_refund (client : Client) (payment_id : string) (amount : option Z).

(** A [requests.Response]: its status and what [.json()] gives, [None]
    when the body is not JSON and [.json()] raises. *)
Record Response := { status_code : Z; json_body : option pyval }.

(** What a call returns: a [requests.Response] or any other value. *)
Inductive returned :=
| IsResponse (r : Response)
| Other (v : pyval).

(** What [frappe.log_error] was given. *)
Inductive logged :=
| LogException (e : exn)
| LogValue (v : pyval).

(** What the code can change: the calls made to the gateway, the Error
    Log, the UUIDs drawn and the SDK clients constructed. *)
Record world := {
  calls : list partial;
  error_log : list logged;
  uuids_drawn : nat;
  sdk_clients : list Client
}.

Definition add_call (f : partial) (w : world) : world :=
  {| calls := calls w ++ [f]; error_log := error_log w;
     uuids_drawn := uuids_drawn w; sdk_clients := sdk_clients w |}.

Definition add_log (x : logged) (w : world) : world :=
  {| calls := calls w; error_log := error_log w ++ [x];
     uuids_drawn := uuids_drawn w; sdk_clients := sdk_clients w |}.

Definition add_uuid (w : world) : world :=
  {| calls := calls w; error_log := error_log w;
     uuids_drawn := S (uuids_drawn w); sdk_clients := sdk_clients w |}.

Definition add_client (c : Client) (w : world) : world :=
  {| calls := calls w; error_log := error_log w;
     uuids_drawn := uuids_drawn w; sdk_clients := sdk_clients w ++ [c] |}.

(** Computations that read and change the world and may raise. *)
Definition M (A : Type) : Type := world -> result A * world.

Definition ret {A} (a : A) : M A := fun w => (Return a, w).
Definition throw {A} (e : exn) : M A := fun w => (Raise e, w).
Definition bind {A B} (m : M A) (k : A -> M B) : M B :=
  fun w => match m w with
           | (Return a, w') => k a w'
           | (Raise e, w') => (Raise e, w')
           end.

Declare Scope py_scope.
Delimit Scope py_scope with py.
Notation "x <- m ;; k" := (bind m (fun x => k))
  (at level 100, m at next level, right associativity) : py_scope.
Notation "m ;; k" := (bind m (fun _ => k))
  (at level 100, right associativity) : py_scope.
Local Open Scope py_scope.

(** [frappe.throw(frappe._(msg))] *)
Definition frappe_throw {A} (msg : string) : M A := throw (ValidationError msg).

(** [frappe.log_error(x)] *)
Definition frappe_log_error (x : logged) : M unit :=
  fun w => (Return tt, add_log x w).

(** [razorpay.Client(auth=auth)] *)
Definition razorpay_Client (auth : string * string) : M Client :=
  fun w => let c := {| client_auth := auth |} in (Return c, add_client c w).

(** [obj.get(key)]: on a [dict] the value or [None], on anything else
    of JSON an [AttributeError]. *)
Definition py_get (obj : pyval) (key : string) : M pyval :=
  match obj with
  | PyDict d => ret (match lookup key d with Some v => v | None => PyNone end)
  | _ => throw (AttributeError "object has no attribute 'get'")
  end.

(** [a + b] where one operand is a [str]: a [str] when the other one is
    a [str] too, a [TypeError] otherwise. *)
Definition py_add_str (a b : pyval) : M string :=
  match a, b with
  | PyStr x, PyStr y => ret (x ++ y)%string
  | _, _ => throw (TypeError "unsupported operand type(s) for +")
  end.

(** [response.json()] *)
Definition Response_json (r : Response) : M pyval :=
  match json_body r with
  | Some v => ret v
  | None => throw JSONDecodeError
  end.

(** [hmac.compare_digest(a, b)] on two [str]: only ASCII strings can be
    compared. *)
Definition compare_digest (a b : string) : M bool :=
  if isascii a && isascii b then ret (a =? b)
  else throw (TypeError "comparing strings with non-ASCII characters is not supported").

(** [try: body / except Exception as e: handler e] *)
Definition try_except {A} (body : M A) (handler : exn -> M A) : M A :=
  fun w => match body w with
           | (Raise e, w') => handler e w'
           | (Return a, w') => (Return a, w')
           end.

(** The object a [RazorpayPayment] is: [rzp_client] is [None] until
    [__init__] has set the attribute. *)
Record RazorpayPayment := {
  auth : Auth;
  base_api_url : string;
  rzp_client : option Client
}.

(** [self.rzp_client] *)
Definition self_rzp_client (self : RazorpayPayment) : M Client :=
  match rzp_client self with
  | Some c => ret c
  | None => throw (AttributeError "'RazorpayPayment' object has no attribute 'rzp_client'")
  end.

(** The keyword arguments of [_create_payment_link] after [amount] and
    [api_endpoint], each with the default of the signature. *)
Record link_kwargs := {
  callback_url : string;
  description : string;
  expire_by : Z;
  payer_email : string;
  payer_phone : string;
  payer_name : string;
  reference_id : string;
  notify_via_email : bool;
  notify_via_sms : bool;
  notes : list (string * string)
}.

Definition default_kwargs : link_kwargs :=
  {| callback_url := ""; description := ""; expire_by := 0;
     payer_email := ""; payer_phone := ""; payer_name := "";
     reference_id := ""; notify_via_email := false; notify_via_sms := false;
     notes := [] |}.

(** The json headers the three direct HTTP calls send. *)
Definition content_type_lower : list (string * string) :=
  [("content-type", "application/json")].
Definition content_type_capital : list (string * string) :=
  [("Content-type", "application/json")].

(** The signature as the protocol describes it: the hexadecimal
    HMAC-SHA256, under the UTF-8 bytes of the secret, of the UTF-8 bytes
    of the four fields joined by [|] in this order. *)
Definition reference_signature (secret link_id reference_id' status payment_id : string)
    : string :=
  hex (rfc2104_hmac_sha256
         (utf8 secret)
         (utf8 (link_id ++ "|" ++ reference_id' ++ "|" ++ status ++ "|" ++ payment_id)%string)).

(** An HTTP status of the success class. *)
Definition success_status (code : Z) : bool := ((200 <=? code) && (code <? 300))%Z.

(** The error object a value holds under ["error"], when it has a code
    and a description that are strings. *)
Definition embedded_error (v : pyval) : option (string * string) :=
  match v with
  | PyDict d =>
      match lookup "error" d with
      | Some (PyDict e) =>
          match lookup "code" e, lookup "description" e with
          | Some (PyStr c), Some (PyStr t) => Some (c, t)
          | _, _ => None
          end
      | _ => None
      end
  | _ => None
  end.

(** What a parsed body holds under ["error"]. *)
Definition body_error (body : pyval) : option pyval :=
  match body with
  | PyDict d => lookup "error" d
  | _ => None
  end.

(** The call [validate_razorpay_creds] makes for a key and a secret. *)
Definition probe (api_key api_secret : string) : partial :=
  requests_get "https://api.razorpay.com/v1/customers?count=1"
               (api_key, api_secret) content_type_lower.

(** The answers to the probe that [handle_api_response] turns into an
    exception: the call raises, the body is not JSON or not an object, or
    the object holds something true under ["error"]. *)
Definition probe_rejected (answer : result returned) : bool :=
  match answer with
  | Raise _ => true
  | Return (IsResponse r) =>
      match json_body r with
      | Some (PyDict d) =>
          match lookup "error" d with
          | Some e => truthy e
          | None => false
          end
      | _ => true
      end
  | Return (Other _) => false
  end.

(** Inputs used to run the model. *)
Module Sample.

Definition w0 : world :=
  {| calls := []; error_log := []; uuids_drawn := 0; sdk_clients := [] |}.

Definition uuid4 (n : nat) : string :=
  if Nat.eqb n 0 then "6f1c2a50-7d1e-4c8e-9a57-0d2b6c3e4f10"
  else "b3a9e8d2-41f7-4e0a-8c6d-5e2f7a1b9c33".

Definition get_url (path : string) : string :=
  ("https://shop.example.com/" ++ path)%string.

Definition client : Client := {| client_auth := ("rzp_test_key", "s3cr3t") |}.

Definition self : RazorpayPayment :=
  {| auth := {| api_key := "rzp_test_key"; api_secret := "s3cr3t" |};
     base_api_url := "https://api.razorpay.com/v1/";
     rzp_client := Some client |}.

Definition error_body : pyval :=
  PyDict [("error", PyDict [("code", PyStr "BAD_REQUEST_ERROR");
                            ("description", PyStr "amount must be at least INR 1.00")])].

(** The SDK hands back a plain [dict] that holds an error object. *)
Definition gateway_raw_error (_ : list partial) (_ : partial) : result returned :=
  Return (Other error_body).

(** The gateway answers 400 with an error object in the body. *)
Definition gateway_http_error (_ : list partial) (_ : partial) : result returned :=
  Return (IsResponse {| status_code := 400; json_body := Some error_body |}).

(** The gateway answers 401 to a wrong key or secret. *)
Definition gateway_401 (_ : list partial) (_ : partial) : result returned :=
  Return (IsResponse
            {| status_code := 401;
               json_body :=
                 Some (PyDict [("error",
                                PyDict [("code", PyStr "BAD_REQUEST_ERROR");
                                        ("description", PyStr "Authentication failed")])]) |}).

(** The transport fails. *)
Definition gateway_down (_ : list partial) (_ : partial) : result returned :=
  Raise (ExternalError "ConnectionError" "Max retries exceeded with url: /v1/").

(** The gateway answers 500 with an empty JSON object. *)
Definition gateway_500 (_ : list partial) (_ : partial) : result returned :=
  Return (IsResponse {| status_code := 500; json_body := Some (PyDict []) |}).

(** The gateway answers 200 with an entity. *)
Definition gateway_ok (_ : list partial) (_ : partial) : result returned :=
  Return (IsResponse {| status_code := 200;
                        json_body := Some (PyDict [("entity", PyStr "collection")]) |}).

End Sample.

(* ================================================================== *)
(** ** [handle_api_response] and the class [RazorpayPayment] *)

Section Gateway.

(** What the gateway (or the network on the way) answers to a call,
    given the calls made before it. *)
Variable gateway : list partial -> partial -> result returned.
(** [str(uuid4())], for the n-th UUID drawn. *)
Variable uuid4 : nat -> string.
(** [frappe.utils.get_url] *)
Variable get_url : string -> string.

(** [_func()]: the call is made and recorded. *)
Definition invoke (_func : partial) : M returned :=
  fun w => (gateway (calls w) _func, add_call _func w).

(** [str(uuid4())] *)
Definition str_uuid4 : M string :=
  fun w => (Return (uuid4 (uuids_drawn w)), add_uuid w).

(** [handle_api_response(_func)]; [None] stands for an argument that is
    not callable. *)
Definition handle_api_response (_func : option partial) : M pyval :=
  match _func with
  | None => ret PyNone
  | Some f =>
      response <- try_except (invoke f)
                    (fun e => frappe_log_error (LogException e);;
                              frappe_throw "Something Bad Happened !");;
      match response with
      | IsResponse r =>
          response <- Response_json r;;
          error <- py_get response "error";;
          if truthy error then
            frappe_log_error (LogValue error);;
            code <- py_get error "code";;
            code_sep <- py_add_str code (PyStr "- ");;
            descr <- py_get error "description";;
            msg <- py_add_str (PyStr code_sep) descr;;
            frappe_throw msg
          else ret response
      | Other v => ret v
      end
  end.

(** [RazorpayPayment.validate_razorpay_creds] *)
Definition validate_razorpay_creds (self : RazorpayPayment) : M pyval :=
  handle_api_response
    (Some (requests_get (base_api_url self ++ "customers?count=1")%string
                        (tuple (auth self)) content_type_lower)).

(** [RazorpayPayment.__init__] *)
Definition __init__ (api_key api_secret : string) : M RazorpayPayment :=
  let self := {| auth := {| api_key := api_key; api_secret := api_secret |};
                 base_api_url := "https://api.razorpay.com/v1/";
                 rzp_client := None |} in
  validate_razorpay_creds self;;
  client <- razorpay_Client (api_key, api_secret);;
  ret {| auth := auth self; base_api_url := base_api_url self;
         rzp_client := Some client |}.

(** [RazorpayPayment._create_payment_link]; [amount] is [None] when the
    caller passes [None]. *)
Definition _create_payment_link (self : RazorpayPayment) (amount : option Z)
    (api_endpoint : string) (kw : link_kwargs) : M pyval :=
  let rejected :=
    match amount with
    | None => true
    | Some a => negb (truthy (PyInt a)) || (a <? 1)%Z
    end in
  if rejected then
    frappe_throw "Amount (INT) is required for creating a payment link !"
  else
    let amount := (match amount with Some a => a | None => 0 end * 100)%Z in
    callback <- (if truthy (PyStr (callback_url kw)) then ret (callback_url kw)
                 else ret (get_url "razorpay_payment_status"));;
    reference <- (if truthy (PyStr (reference_id kw)) then ret (reference_id kw)
                  else str_uuid4);;
    handle_api_response
      (Some (requests_post
               (base_api_url self ++ api_endpoint)%string
               (tuple (auth self))
               (PyDict
                  [("amount", PyInt amount);
                   ("callback_url", PyStr callback);
                   ("callback_method", PyStr "get");
                   ("currency", PyStr "INR");
                   ("customer",
                    PyDict [("name", PyStr (payer_name kw));
                            ("email", PyStr (payer_email kw));
                            ("phone", PyStr (payer_phone kw))]);
                   ("description", PyStr (description kw));
                   ("expire_by", PyInt (expire_by kw));
                   ("notify",
                    PyDict [("sms", PyBool (notify_via_sms kw));
                            ("email", PyBool (notify_via_email kw))]);
                   ("reference_id", PyStr reference);
                   ("notes",
                    PyDict (map (fun kv => (fst kv, PyStr (snd kv))) (notes kw)))])
               content_type_capital)).

(** [RazorpayPayment.get_or_create_payment_link]; of its [**kwargs],
    [amount] is [None] when the keyword is not given, and then the call of
    [_create_payment_link] lacks a required argument. *)
Definition get_or_create_payment_link (self : RazorpayPayment)
    (payment_link_id : string) (amount : option Z) (kwargs : link_kwargs)
    : M pyval :=
  let api_endpoint := "payment_links" in
  if truthy (PyStr payment_link_id) then
    handle_api_response
      (Some (requests_get
               (base_api_url self ++ "/" ++ api_endpoint ++ "/" ++ payment_link_id)%string
               (tuple (auth self)) content_type_lower))
  else
    match amount with
    | None =>
        throw (TypeError
                 "_create_payment_link() missing 1 required positional argument: 'amount'")
    | Some a => _create_payment_link self (Some a) api_endpoint kwargs
    end.

(** [RazorpayPayment.get_payment] *)
Definition get_payment (self : RazorpayPayment) (payment_id : string) : M pyval :=
  if negb (truthy (PyStr payment_id)) then
    frappe_throw "Please Provide Payment ID for fetching the respective payment !"
  else
    client <- self_rzp_client self;;
    handle_api_response (Some (payment_fetch client payment_id)).

(** [RazorpayPayment.refund_payment]; [refund_amt] is [None] when the
    argument is left out and takes its default [0]. *)
Definition refund_payment (self : RazorpayPayment) (payment_id : string)
    (refund_amt : option Z) : M pyval :=
  let refund_amt := match refund_amt with Some a => a | None => 0%Z end in
  if negb (truthy (PyStr payment_id)) then
    frappe_throw "Please Provide Payment ID for which the amount needs to be refunded !"
  else
    _func <- (if negb (truthy (PyInt refund_amt)) then
                client <- self_rzp_client self;;
                ret (payment_refund client payment_id None)
              else
                let refund_amt := (refund_amt * 100)%Z in
                client <- self_rzp_client self;;
                ret (payment_refund client payment_id (Some refund_amt)));;
    handle_api_response (Some _func).

(** [RazorpayPayment.verify_payment_signature] *)
Definition verify_payment_signature (self : RazorpayPayment)
    (razorpay_payment_link_id razorpay_payment_link_reference_id
     razorpay_payment_link_status razorpay_payment_id razorpay_signature : string)
    (raise_err : bool) : M bool :=
  let message :=
    ((((((razorpay_payment_link_id ++ "|") ++
         razorpay_payment_link_reference_id) ++ "|") ++
         razorpay_payment_link_status) ++ "|") ++
         razorpay_payment_id)%string in
  let secret := utf8 (api_secret (auth self)) in
  let msg := utf8 message in
  matches <- compare_digest (Hmac.hexdigest (Hmac.new secret msg)) razorpay_signature;;
  if negb matches then
    (if raise_err then
       frappe_throw "Razorpay Payment Signature Verification Failed"
     else ret tt);;
    ret false
  else ret true.

End Gateway.

(** Unfolds the steps of a computation in [M]. *)
Ltac run :=
  unfold handle_api_response, try_except, invoke, bind, ret, throw, frappe_throw,
    frappe_log_error, py_get, py_add_str, Response_json, razorpay_Client,
    self_rzp_client, str_uuid4;
  cbn [fst snd].

(** A character of a lower-case hexadecimal digest. *)
Definition is_lower_hex (c : ascii) : bool :=
  existsb (Ascii.eqb c) (list_ascii_of_string "0123456789abcdef").

(** The [reference_id] a create request carries. *)
Definition sent_reference_id (call : partial) : option pyval :=
  match call with
  | requests_post _ _ (PyDict payload) _ => lookup "reference_id" payload
  | _ => None
  end.

(* ================================================================== *)
(** ** The doctype [Razorpay Payment Log] of [razorpay_payment_log.py]

    The table holds one row per document: its [name] (the primary key),
    its [status] ([None] for SQL's [NULL]) and the other columns, which
    the two updates never mention.  The database compares strings under
    the collation of the column, [sql_eq]. *)

Module RazorpayPaymentLog.

Record row := {
  name : string;
  status : option string;
  columns : list (string * pyval)
}.

Definition table := list row.

Definition set_status (value : string) (r : row) : row :=
  {| name := name r; status := Some value; columns := columns r |}.

(** [frappe.qb.update(log).set(log.status, value).where(cond).run()] *)
Definition update_set_status_where (value : string) (cond : row -> bool)
    (t : table) : table :=
  map (fun r => if cond r then set_status value r else r) t.

Section Collation.

Variable sql_eq : string -> string -> bool.

(** [log.name == docname] *)
Definition name_is (docname : string) (r : row) : bool := sql_eq (name r) docname.

(** [log.status == value]; a [NULL] status equals nothing. *)
Definition status_is (value : string) (r : row) : bool :=
  match status r with
  | Some s => sql_eq s value
  | None => false
  end.

(** [update_payment_log_status_to_refund(docname)], which returns [None] *)
Definition update_payment_log_status_to_refund (docname : string) (t : table)
    : unit * table :=
  (tt, update_set_status_where "Refund" (name_is docname) t).

(** [update_failed_payment_log_status_to_refund()], which returns its
    message *)
Definition update_failed_payment_log_status_to_refund (t : table)
    : string * table :=
  (("Changed Status to Refund." ++
    String "010" (String "009" (String "009"
      "These jobs will be picked up by the hourly scheduler in its next iteration !!")))%string,
   update_set_status_where "Refund" (status_is "Failed") t).

End Collation.

(** A table used to run the two updates. *)
Definition sample_table : table :=
  [ {| name := "RPL-0001"; status := Some "Failed"; columns := [("amount", PyInt 500)] |};
    {| name := "RPL-0002"; status := Some "Paid"; columns := [("amount", PyInt 120)] |};
    {| name := "RPL-0003"; status := None; columns := [] |};
    {| name := "RPL-0004"; status := Some "Failed"; columns := [] |} ].

End RazorpayPaymentLog.

(** More inputs to run the client on. *)
Module MoreSamples.

(** A proxy answers 502 with a page that is not JSON. *)
Definition gateway_502 (_ : list partial) (_ : partial) : result returned :=
  Return (IsResponse {| status_code := 502; json_body := None |}).

(** An error object without a description. *)
Definition error_without_description : pyval :=
  PyDict [("code", PyStr "SERVER_ERROR")].

Definition gateway_malformed_error (_ : list partial) (_ : partial)
    : result returned :=
  Return (IsResponse
            {| status_code := 500;
               json_body := Some (PyDict [("error", error_without_description)]) |}).

(** The SDK hands back a payment. *)
Definition payment : pyval :=
  PyDict [("id", PyStr "pay_123"); ("amount", PyInt 50000); ("status", PyStr "captured")].

Definition gateway_sdk (_ : list partial) (_ : partial) : result returned :=
  Return (Other payment).

(** Keyword arguments with a callback URL and a reference id. *)
Definition kwargs : link_kwargs :=
  {| callback_url := "https://shop.example.com/paid"; description := "Order 42";
     expire_by := 1700000000; payer_email := "payer@example.com";
     payer_phone := "9000000000"; payer_name := "A Payer";
     reference_id := "order-42"; notify_via_email := true; notify_via_sms := false;
     notes := [("order", "42")] |}.

End MoreSamples.

(* ================================================================== *)
(** ** Known answers of the hash functions *)

Example sha256_empty :
  hex (sha256 (utf8 "")) =
  "e3b0c44298fc1c149afbf4c8996fb92427ae41e4649b934ca495991b7852b855".
Proof. vm_compute. reflexivity. Qed.

Example sha256_abc :
  hex (sha256 (utf8 "abc")) =
  "ba7816bf8f01cfea414140de5dae2223b00361a396177a9cb410ff61f20015ad".
Proof. vm_compute. reflexivity. Qed.

Example sha256_two_blocks :
  hex (sha256 (utf8 "abcdbcdecdefdefgefghfghighijhijkijkljklmklmnlmnomnopnopq")) =
  "248d6a61d20638b8e5c026930c3e6039a33ce45964ff2167f6ecedd419db06c1".
Proof. vm_compute. reflexivity. Qed.

Example hmac_sha256_quick_brown_fox :
  Hmac.hexdigest
    (Hmac.new (utf8 "key") (utf8 "The quick brown fox jumps over the lazy dog")) =
  "f7bc83f430538424b13298e6aa6fb143ef4d59a14946175997479dbc2d1a3cd8".
Proof. vm_compute. reflexivity. Qed.

(* ================================================================== *)
(** ** [hmac.new] against RFC 2104 *)

Lemma translate_5C_xor (b : byte) :
  nth (N.to_nat (Byte.to_N b)) Hmac.trans_5C x00 = Hmac.xor_byte 92 b.
Proof. destruct b; vm_compute; reflexivity. Qed.

Lemma translate_36_xor (b : byte) :
  nth (N.to_nat (Byte.to_N b)) Hmac.trans_36 x00 = Hmac.xor_byte 54 b.
Proof. destruct b; vm_compute; reflexivity. Qed.

Lemma ljust_zero_fill (width : nat) (data : bytes) :
  Hmac.ljust width data = data ++ repeat x00 (width - List.length data).
Proof.
  unfold Hmac.ljust.
  destruct (Nat.leb width (List.length data)) eqn:E; [|reflexivity].
  apply Nat.leb_le in E.
  replace (width - List.length data)%nat with 0%nat by lia.
  simpl. now rewrite app_nil_r.
Qed.

Lemma hmac_key_block (key : bytes) :
  Hmac.ljust Hmac.blocksize
    (if Nat.ltb Hmac.blocksize (List.length key) then sha256 key else key) =
  rfc2104_key key.
Proof.
  unfold rfc2104_key, Hmac.blocksize. rewrite ljust_zero_fill.
  destruct (Nat.ltb 64 (List.length key)) eqn:L.
  - apply Nat.ltb_lt in L.
    assert (Nat.leb (List.length key) 64 = false) as -> by (apply Nat.leb_gt; lia).
    reflexivity.
  - apply Nat.ltb_ge in L.
    assert (Nat.leb (List.length key) 64 = true) as -> by (apply Nat.leb_le; lia).
    reflexivity.
Qed.

Lemma hmac_digest_rfc2104 (key msg : bytes) :
  Hmac.digest (Hmac.new key msg) = rfc2104_hmac_sha256 key msg.
Proof.
  unfold Hmac.digest, Hmac.new, Hmac.update, rfc2104_hmac_sha256. cbn [Hmac._inner Hmac._outer].
  rewrite hmac_key_block. unfold Hmac.translate.
  rewrite (map_ext _ _ translate_5C_xor), (map_ext _ _ translate_36_xor).
  reflexivity.
Qed.

(** ** Strings *)

Lemma append_assoc (a b c : string) : ((a ++ b) ++ c = a ++ (b ++ c))%string.
Proof. induction a as [|ch a IH]; simpl; [reflexivity | now rewrite IH]. Qed.

Lemma hex_digit_ascii (b : byte) :
  N.ltb (N_of_ascii (hex_digit (Byte.to_N b / 16))) 128 = true /\
  N.ltb (N_of_ascii (hex_digit (Byte.to_N b mod 16))) 128 = true.
Proof. destruct b; vm_compute; split; reflexivity. Qed.

Lemma isascii_hex (bs : bytes) : isascii (hex bs) = true.
Proof.
  induction bs as [|b bs IH]; [reflexivity|].
  unfold isascii in *. cbn [hex list_ascii_of_string forallb].
  destruct (hex_digit_ascii b) as [-> ->]. exact IH.
Qed.

Lemma isascii_not_hex (bs : bytes) (s : string) : isascii s = false -> hex bs <> s.
Proof. intros H E. rewrite <- E, isascii_hex in H. discriminate. Qed.

(* ================================================================== *)
(** ** The signature verifier *)

Lemma verify_payment_signature_compares
    (self : RazorpayPayment) (link_id ref_id status payment_id signature : string)
    (raise_err : bool) (w : world) :
  verify_payment_signature self link_id ref_id status payment_id signature raise_err w =
  (matches <- compare_digest
                (reference_signature (api_secret (auth self))
                                     link_id ref_id status payment_id)
                signature;;
   if matches then ret true
   else if raise_err then frappe_throw "Razorpay Payment Signature Verification Failed"
   else ret false) w.
Proof.
  unfold verify_payment_signature, reference_signature, Hmac.hexdigest.
  rewrite hmac_digest_rfc2104, !append_assoc.
  unfold bind. destruct (compare_digest _ signature w) as [[[|]|e] w']; try reflexivity.
  destruct raise_err; reflexivity.
Qed.

(** C1. For all five strings and every secret, [verify_payment_signature]
    compares the signature with the hexadecimal HMAC-SHA256 digest, under
    the UTF-8 bytes of the secret, of the UTF-8 bytes of
    [link_id + "|" + reference_id + "|" + status + "|" + payment_id]; the
    digest [hmac.new] gives is the one of the RFC 2104 reference; and the
    function returns [True] exactly when that digest is the signature. *)
Theorem verify_payment_signature_hmac_sha256
    (self : RazorpayPayment) (link_id ref_id status payment_id signature : string)
    (raise_err : bool) (w : world) :
  Hmac.hexdigest
    (Hmac.new (utf8 (api_secret (auth self)))
              (utf8 (link_id ++ "|" ++ ref_id ++ "|" ++ status ++ "|" ++ payment_id)%string))
  = reference_signature (api_secret (auth self)) link_id ref_id status payment_id
  /\ verify_payment_signature self link_id ref_id status payment_id signature raise_err w
     = (matches <- compare_digest
                     (Hmac.hexdigest
                        (Hmac.new (utf8 (api_secret (auth self)))
                           (utf8 (link_id ++ "|" ++ ref_id ++ "|" ++ status ++ "|"
                                          ++ payment_id)%string)))
                     signature;;
        if matches then ret true
        else if raise_err then frappe_throw "Razorpay Payment Signature Verification Failed"
        else ret false) w
  /\ (fst (verify_payment_signature self link_id ref_id status payment_id
                                    signature raise_err w) = Return true
      <-> reference_signature (api_secret (auth self)) link_id ref_id status payment_id
          = signature).
Proof.
  assert (E : Hmac.hexdigest
                (Hmac.new (utf8 (api_secret (auth self)))
                   (utf8 (link_id ++ "|" ++ ref_id ++ "|" ++ status ++ "|" ++ payment_id)%string))
              = reference_signature (api_secret (auth self)) link_id ref_id status payment_id).
  { unfold Hmac.hexdigest, reference_signature. now rewrite hmac_digest_rfc2104. }
  split; [exact E|]. rewrite E, verify_payment_signature_compares. split; [reflexivity|].
  unfold bind, compare_digest, reference_signature.
  rewrite isascii_hex. cbn [andb].
  destruct (isascii signature) eqn:A.
  - cbn [ret fst].
    destruct (String.eqb_spec
                (hex (rfc2104_hmac_sha256 (utf8 (api_secret (auth self)))
                        (utf8 (link_id ++ "|" ++ ref_id ++ "|" ++ status ++ "|"
                                       ++ payment_id)%string)))
                signature) as [Heq|Hne].
    + split; [intros _; exact Heq | reflexivity].
    + split; [|intros Heq; contradiction].
      destruct raise_err; cbn; discriminate.
  - cbn [throw fst]. split; [discriminate|].
    intros Heq. exfalso. exact (isascii_not_hex _ _ A Heq).
Qed.

(** The digest of ["A|B|C|D"] under the secret ["secret"], as an HMAC-SHA256
    implementation outside this development gives it, is accepted. *)
Example verify_payment_signature_round_trip :
  verify_payment_signature
    {| auth := {| api_key := "key"; api_secret := "secret" |};
       base_api_url := "https://api.razorpay.com/v1/"; rzp_client := None |}
    "A" "B" "C" "D"
    "7bad1c84d574d5671f35fabd43ae506643150b4238e74843ae2337c3b2b17eed"
    true Sample.w0
  = (Return true, Sample.w0).
Proof. vm_compute. reflexivity. Qed.

(** On an ASCII signature that differs from the digest the function
    returns [False], or with [raise_err] raises the verification failure,
    and changes nothing. *)
Lemma verify_payment_signature_ascii_mismatch
    (self : RazorpayPayment) (link_id ref_id status payment_id signature : string)
    (w : world) :
  isascii signature = true ->
  reference_signature (api_secret (auth self)) link_id ref_id status payment_id
    <> signature ->
  verify_payment_signature self link_id ref_id status payment_id signature false w
    = (Return false, w)
  /\ verify_payment_signature self link_id ref_id status payment_id signature true w
     = (Raise (ValidationError "Razorpay Payment Signature Verification Failed"), w).
Proof.
  intros A Hne. rewrite !verify_payment_signature_compares.
  unfold bind, compare_digest, reference_signature in *.
  rewrite isascii_hex, A. cbn [andb ret].
  apply String.eqb_neq in Hne. rewrite Hne. split; reflexivity.
Qed.

(** A signature that is not ASCII never equals the digest, and
    [hmac.compare_digest] refuses it with a [TypeError], whatever
    [raise_err] is. *)
Lemma verify_payment_signature_non_ascii
    (self : RazorpayPayment) (link_id ref_id status payment_id signature : string)
    (raise_err : bool) (w : world) :
  isascii signature = false ->
  reference_signature (api_secret (auth self)) link_id ref_id status payment_id
    <> signature
  /\ verify_payment_signature self link_id ref_id status payment_id signature raise_err w
     = (Raise (TypeError "comparing strings with non-ASCII characters is not supported"), w).
Proof.
  intros A. split; [apply isascii_not_hex; exact A|].
  rewrite verify_payment_signature_compares.
  unfold bind, compare_digest. rewrite A, andb_false_r. reflexivity.
Qed.

(** C4, at a signature outside ASCII: the digest differs from the
    signature ["é"], [raise_err] is unset, and the call raises a
    [TypeError] instead of returning [False]. *)
Theorem verify_payment_signature_non_ascii_raises :
  reference_signature "s3cr3t" "plink_1" "ref_1" "paid" "pay_1" <> "é"
  /\ verify_payment_signature Sample.self "plink_1" "ref_1" "paid" "pay_1" "é"
                              false Sample.w0
     = (Raise (TypeError "comparing strings with non-ASCII characters is not supported"),
        Sample.w0)
  /\ fst (verify_payment_signature Sample.self "plink_1" "ref_1" "paid" "pay_1" "é"
                                   false Sample.w0)
     <> Return false.
Proof.
  destruct (verify_payment_signature_non_ascii
              Sample.self "plink_1" "ref_1" "paid" "pay_1" "é" false Sample.w0
              eq_refl) as [Hne Hrun].
  split; [exact Hne|]. split; [exact Hrun|]. rewrite Hrun. discriminate.
Qed.

(* ================================================================== *)
(** ** The response normalizer *)

Section Properties.

Variable gateway : list partial -> partial -> result returned.
Variable uuid4 : nat -> string.
Variable get_url : string -> string.

Lemma calls_add_log (x : logged) (w : world) : calls (add_log x w) = calls w.
Proof. reflexivity. Qed.

Lemma sdk_clients_add_log (x : logged) (w : world) :
  sdk_clients (add_log x w) = sdk_clients w.
Proof. reflexivity. Qed.

(** [_func()] raises: the exception is logged and a fixed message is thrown. *)
Lemma handle_api_response_except (f : partial) (e : exn) (w : world) :
  gateway (calls w) f = Raise e ->
  handle_api_response gateway (Some f) w =
  (Raise (ValidationError "Something Bad Happened !"),
   add_log (LogException e) (add_call f w)).
Proof. intros H. run. rewrite H. reflexivity. Qed.

(** [_func()] returns something that is no [requests.Response]. *)
Lemma handle_api_response_other (f : partial) (v : pyval) (w : world) :
  gateway (calls w) f = Return (Other v) ->
  handle_api_response gateway (Some f) w = (Return v, add_call f w).
Proof. intros H. run. rewrite H. reflexivity. Qed.

(** [_func()] returns a response whose body is an object with nothing
    true under ["error"]. *)
Lemma handle_api_response_clean (f : partial) (r : Response)
    (d : list (string * pyval)) (w : world) :
  gateway (calls w) f = Return (IsResponse r) ->
  json_body r = Some (PyDict d) ->
  truthy (match lookup "error" d with Some v => v | None => PyNone end) = false ->
  handle_api_response gateway (Some f) w = (Return (PyDict d), add_call f w).
Proof. intros H B T. run. rewrite H. cbn. rewrite B. cbn. rewrite T. reflexivity. Qed.

(** [_func()] returns a response whose body holds an error object with a
    code and a description. *)
Lemma handle_api_response_error (f : partial) (r : Response) (body : pyval)
    (code descr : string) (w : world) :
  gateway (calls w) f = Return (IsResponse r) ->
  json_body r = Some body ->
  embedded_error body = Some (code, descr) ->
  exists e,
    body_error body = Some (PyDict e) /\
    handle_api_response gateway (Some f) w =
    (Raise (ValidationError (code ++ "- " ++ descr)%string),
     add_log (LogValue (PyDict e)) (add_call f w)).
Proof.
  intros H B E. unfold embedded_error in E.
  destruct body as [| | | | |d]; try discriminate.
  unfold body_error.
  destruct (lookup "error" d) as [[| | | | |e]|] eqn:L; try discriminate.
  exists e. split; [reflexivity|].
  destruct (lookup "code" e) as [[| | |c| |]|] eqn:Lc; try discriminate.
  destruct (lookup "description" e) as [[| | |t| |]|] eqn:Lt; try discriminate.
  injection E as <- <-.
  assert (truthy (PyDict e) = true) as T by (destruct e; [discriminate | reflexivity]).
  run. rewrite H. cbn. rewrite B. cbn. rewrite L, T. cbn. rewrite Lc. cbn.
  rewrite Lt. cbn. now rewrite append_assoc.
Qed.

(** Whatever the gateway answers, [handle_api_response] makes the one call
    it is given and constructs no SDK client. *)
Lemma handle_api_response_calls (f : partial) (w : world) :
  calls (snd (handle_api_response gateway (Some f) w)) = calls w ++ [f]
  /\ sdk_clients (snd (handle_api_response gateway (Some f) w)) = sdk_clients w.
Proof.
  run. destruct (gateway (calls w) f) as [[r|v]|e]; cbn; auto.
  destruct (json_body r) as [body|]; cbn; auto.
  destruct body as [| | | | |d]; cbn; auto.
  destruct (truthy _); cbn; auto.
  destruct (lookup "error" d) as [[| | | | |err]|]; cbn; auto.
  destruct (lookup "code" err) as [[| | |c| |]|]; cbn; auto.
  destruct (lookup "description" err) as [[| | |t| |]|]; cbn; auto.
Qed.

(** C2, amended. When the call returns an HTTP response whose parsed body
    holds an error object with a code and a description, the caller gets a
    failure whose message is exactly the code, then ["- "], then the
    description, and the error object is logged; a result that is not an
    HTTP response is handed back as it is, whatever it holds. *)
Theorem handle_api_response_gateway_error (f : partial) (w : world) :
  (forall (r : Response) (body : pyval) (code descr : string),
      gateway (calls w) f = Return (IsResponse r) ->
      json_body r = Some body ->
      embedded_error body = Some (code, descr) ->
      fst (handle_api_response gateway (Some f) w)
        = Raise (ValidationError (code ++ "- " ++ descr)%string)
      /\ exists e, body_error body = Some (PyDict e)
                   /\ error_log (snd (handle_api_response gateway (Some f) w))
                      = error_log w ++ [LogValue (PyDict e)])
  /\ (forall v : pyval,
         gateway (calls w) f = Return (Other v) ->
         handle_api_response gateway (Some f) w = (Return v, add_call f w)).
Proof.
  split.
  - intros r body code descr H B E.
    destruct (handle_api_response_error f r body code descr w H B E) as [e [Le Run]].
    rewrite Run. split; [reflexivity|]. exists e. split; [exact Le | reflexivity].
  - intros v H. now apply handle_api_response_other.
Qed.

(** C3, amended. When the call raises, the exception is logged and the
    caller gets a failure whose message is ["Something Bad Happened !"],
    the same for every exception. *)
Theorem handle_api_response_transport_failure (f : partial) (e : exn) (w : world)
    (H : gateway (calls w) f = Raise e) :
  fst (handle_api_response gateway (Some f) w)
    = Raise (ValidationError "Something Bad Happened !")
  /\ error_log (snd (handle_api_response gateway (Some f) w))
     = error_log w ++ [LogException e]
  /\ calls (snd (handle_api_response gateway (Some f) w)) = calls w ++ [f].
Proof. rewrite (handle_api_response_except f e w H). repeat split. Qed.

(* ================================================================== *)
(** ** Construction *)

Lemma validate_razorpay_creds_probe (api_key api_secret : string) (c : option Client)
    (w : world) :
  validate_razorpay_creds gateway
    {| auth := {| api_key := api_key; api_secret := api_secret |};
       base_api_url := "https://api.razorpay.com/v1/"; rzp_client := c |} w
  = handle_api_response gateway (Some (probe api_key api_secret)) w.
Proof. reflexivity. Qed.

(** A rejected probe makes [handle_api_response] raise. *)
Lemma handle_api_response_rejected (f : partial) (w : world) :
  probe_rejected (gateway (calls w) f) = true ->
  exists e w', handle_api_response gateway (Some f) w = (Raise e, w')
               /\ sdk_clients w' = sdk_clients w.
Proof.
  intros H.
  destruct (handle_api_response gateway (Some f) w) as [res w'] eqn:Run.
  assert (sdk_clients w' = sdk_clients w) as S.
  { pose proof (proj2 (handle_api_response_calls f w)) as P. now rewrite Run in P. }
  destruct res as [v|e]; [exfalso | now exists e, w'].
  revert Run. run. unfold probe_rejected in H.
  destruct (gateway (calls w) f) as [[r|v']|e]; cbn in *; try discriminate.
  destruct (json_body r) as [body|]; cbn; try discriminate.
  destruct body as [| | | | |d]; cbn; try discriminate.
  destruct (lookup "error" d) as [err|]; try discriminate.
  rewrite H. cbn.
  destruct err as [| | | | |ed]; cbn; try discriminate.
  destruct (lookup "code" ed) as [[| | |c| |]|]; cbn; try discriminate.
  destruct (lookup "description" ed) as [[| | |t| |]|]; cbn; discriminate.
Qed.

(** A probe that is not rejected is handed back. *)
Lemma handle_api_response_accepted (f : partial) (w : world) :
  probe_rejected (gateway (calls w) f) = false ->
  exists v, handle_api_response gateway (Some f) w = (Return v, add_call f w).
Proof.
  intros H. run. unfold probe_rejected in H.
  destruct (gateway (calls w) f) as [[r|v']|e]; cbn in *; try discriminate.
  - destruct (json_body r) as [body|]; cbn; try discriminate.
    destruct body as [| | | | |d]; cbn; try discriminate.
    destruct (lookup "error" d) as [err|]; [rewrite H|]; cbn; eauto.
  - eauto.
Qed.

(** C9, amended. If the probe raises, or its body is not a JSON object, or
    the object holds something true under ["error"], [__init__] raises:
    no instance is returned and no SDK client has been constructed. *)
Theorem init_fails_atomically (api_key api_secret : string) (w : world)
    (H : probe_rejected (gateway (calls w) (probe api_key api_secret)) = true) :
  exists e w',
    __init__ gateway api_key api_secret w = (Raise e, w')
    /\ sdk_clients w' = sdk_clients w
    /\ calls w' = calls w ++ [probe api_key api_secret].
Proof.
  destruct (handle_api_response_rejected _ w H) as [e [w' [Run S]]].
  exists e, w'. unfold __init__, bind. rewrite validate_razorpay_creds_probe, Run.
  split; [reflexivity|]. split; [exact S|].
  pose proof (proj1 (handle_api_response_calls (probe api_key api_secret) w)) as C.
  now rewrite Run in C.
Qed.

(** Otherwise the instance is returned, with its SDK client, whatever the
    HTTP status of the answer. *)
Lemma init_succeeds (api_key api_secret : string) (w : world) :
  probe_rejected (gateway (calls w) (probe api_key api_secret)) = false ->
  __init__ gateway api_key api_secret w =
  (Return {| auth := {| api_key := api_key; api_secret := api_secret |};
             base_api_url := "https://api.razorpay.com/v1/";
             rzp_client := Some {| client_auth := (api_key, api_secret) |} |},
   add_client {| client_auth := (api_key, api_secret) |}
              (add_call (probe api_key api_secret) w)).
Proof.
  intros H. destruct (handle_api_response_accepted _ w H) as [v Run].
  unfold __init__, bind. rewrite validate_razorpay_creds_probe, Run. reflexivity.
Qed.

(* ================================================================== *)
(** ** Payment links, payments and refunds *)

Lemma truthy_str (s : string) : s <> "" -> truthy (PyStr s) = true.
Proof. intros H. cbn. apply String.eqb_neq in H. now rewrite H. Qed.

Lemma truthy_int (a : Z) : a <> 0%Z -> truthy (PyInt a) = true.
Proof. intros H. cbn. apply Z.eqb_neq in H. now rewrite H. Qed.



(** C6. For an amount [a > 0], [_create_payment_link] makes one call, a
    POST to the endpoint under the base URL, whose JSON body carries
    [a * 100] as its amount. *)
Theorem create_payment_link_amount_times_100
    (self : RazorpayPayment) (a : Z) (api_endpoint : string) (kw : link_kwargs)
    (w : world) (H : (0 < a)%Z) :
  exists payload,
    calls (snd (_create_payment_link gateway uuid4 get_url self (Some a)
                                     api_endpoint kw w))
    = calls w ++ [requests_post (base_api_url self ++ api_endpoint)%string
                                (tuple (auth self)) (PyDict payload)
                                content_type_capital]
    /\ lookup "amount" payload = Some (PyInt (a * 100)).
Proof.
  unfold _create_payment_link.
  rewrite (truthy_int a) by lia.
  assert ((a <? 1)%Z = false) as -> by (apply Z.ltb_ge; lia).
  cbn [negb orb].
  unfold bind at 1.
  destruct (truthy (PyStr (callback_url kw))); cbn [ret];
    unfold bind at 1;
    destruct (truthy (PyStr (reference_id kw))); cbn [ret str_uuid4];
    eexists;
    (split;
     [ match goal with
       | |- context [handle_api_response _ (Some ?f) ?w1] =>
           exact (proj1 (handle_api_response_calls f w1))
       end
     | reflexivity ]).
Qed.

(** What [refund_payment] asks the SDK for, given a payment id and a client. *)
Lemma refund_payment_call (self : RazorpayPayment) (client : Client)
    (payment_id : string) (refund_amt : option Z) (w : world) :
  payment_id <> "" ->
  rzp_client self = Some client ->
  refund_payment gateway self payment_id refund_amt w =
  handle_api_response gateway
    (Some (payment_refund client payment_id
             (match refund_amt with
              | None => None
              | Some a => if (a =? 0)%Z then None else Some (a * 100)%Z
              end))) w.
Proof.
  intros Hid Hc. unfold refund_payment, self_rzp_client.
  rewrite (truthy_str _ Hid), Hc. cbn [negb truthy].
  destruct refund_amt as [a|]; [destruct (a =? 0)%Z|]; reflexivity.
Qed.

(** C7. With a payment id, [refund_payment] without an amount or with the
    amount [0] calls the SDK's refund with the payment id alone; with a
    positive amount it calls it with the amount times 100. *)
Theorem refund_payment_full_or_partial
    (self : RazorpayPayment) (client : Client) (payment_id : string) (w : world)
    (Hid : payment_id <> "") (Hc : rzp_client self = Some client) :
  (forall refund_amt,
      refund_amt = None \/ refund_amt = Some 0%Z ->
      refund_payment gateway self payment_id refund_amt w
        = handle_api_response gateway (Some (payment_refund client payment_id None)) w
      /\ calls (snd (refund_payment gateway self payment_id refund_amt w))
         = calls w ++ [payment_refund client payment_id None])
  /\ (forall a,
         (0 < a)%Z ->
         refund_payment gateway self payment_id (Some a) w
           = handle_api_response gateway
               (Some (payment_refund client payment_id (Some (a * 100)%Z))) w
         /\ calls (snd (refund_payment gateway self payment_id (Some a) w))
            = calls w ++ [payment_refund client payment_id (Some (a * 100)%Z)]).
Proof.
  split.
  - intros refund_amt [-> | ->];
      rewrite (refund_payment_call self client payment_id _ w Hid Hc); cbn;
      (split; [reflexivity | apply (proj1 (handle_api_response_calls _ _))]).
  - intros a Ha. rewrite (refund_payment_call self client payment_id _ w Hid Hc).
    assert ((a =? 0)%Z = false) as -> by (apply Z.eqb_neq; lia).
    split; [reflexivity | apply (proj1 (handle_api_response_calls _ _))].
Qed.

(** C10. With a payment id and a negative amount [a], [refund_payment]
    does what [handle_api_response] does with the SDK's refund of
    [a * 100]: that call is the one made, no validation error is raised
    ahead of it, and what the SDK hands back is returned. *)
Theorem refund_payment_negative_amount
    (self : RazorpayPayment) (client : Client) (payment_id : string) (a : Z)
    (w : world)
    (Hid : payment_id <> "") (Hc : rzp_client self = Some client) (Ha : (a < 0)%Z) :
  refund_payment gateway self payment_id (Some a) w
    = handle_api_response gateway
        (Some (payment_refund client payment_id (Some (a * 100)%Z))) w
  /\ calls (snd (refund_payment gateway self payment_id (Some a) w))
     = calls w ++ [payment_refund client payment_id (Some (a * 100)%Z)]
  /\ (a * 100 < 0)%Z
  /\ (forall v,
         gateway (calls w) (payment_refund client payment_id (Some (a * 100)%Z))
           = Return (Other v) ->
         fst (refund_payment gateway self payment_id (Some a) w) = Return v).
Proof.
  rewrite (refund_payment_call self client payment_id _ w Hid Hc).
  assert ((a =? 0)%Z = false) as -> by (apply Z.eqb_neq; lia).
  split; [reflexivity|]. split; [apply (proj1 (handle_api_response_calls _ _))|].
  split; [lia|].
  intros v Hv. now rewrite (handle_api_response_other _ v w Hv).
Qed.

(** With a payment link id, [get_or_create_payment_link] fetches: one GET,
    whatever the other arguments are.  Its URL is the base URL, a [/], the
    endpoint, a [/] and the id. *)
Lemma get_or_create_payment_link_fetch
    (self : RazorpayPayment) (payment_link_id : string) (amount : option Z)
    (kwargs : link_kwargs) (w : world) :
  payment_link_id <> "" ->
  get_or_create_payment_link gateway uuid4 get_url self payment_link_id amount kwargs w
  = handle_api_response gateway
      (Some (requests_get
               (base_api_url self ++ "/payment_links/" ++ payment_link_id)%string
               (tuple (auth self)) content_type_lower)) w.
Proof.
  intros Hid. unfold get_or_create_payment_link. now rewrite (truthy_str _ Hid).
Qed.

(** Without an id it calls [_create_payment_link] on the endpoint
    [payment_links]. *)
Lemma get_or_create_payment_link_create
    (self : RazorpayPayment) (a : Z) (kwargs : link_kwargs) (w : world) :
  get_or_create_payment_link gateway uuid4 get_url self "" (Some a) kwargs w
  = _create_payment_link gateway uuid4 get_url self (Some a) "payment_links" kwargs w.
Proof. reflexivity. Qed.

End Properties.

(* ================================================================== *)
(** ** The theorems at concrete inputs *)

Lemma handle_api_response_gateway_error_witness :
  Sample.gateway_http_error (calls Sample.w0) (probe "rzp_test_key" "s3cr3t")
    = Return (IsResponse {| status_code := 400; json_body := Some Sample.error_body |})
  /\ embedded_error Sample.error_body
     = Some ("BAD_REQUEST_ERROR", "amount must be at least INR 1.00")
  /\ fst (handle_api_response Sample.gateway_http_error
            (Some (probe "rzp_test_key" "s3cr3t")) Sample.w0)
     = Raise (ValidationError "BAD_REQUEST_ERROR- amount must be at least INR 1.00").
Proof.
  split; [reflexivity|]. split; [reflexivity|].
  exact (proj1 (proj1 (handle_api_response_gateway_error
                         Sample.gateway_http_error
                         (probe "rzp_test_key" "s3cr3t") Sample.w0)
                  {| status_code := 400; json_body := Some Sample.error_body |}
                  Sample.error_body
                  "BAD_REQUEST_ERROR" "amount must be at least INR 1.00"
                  eq_refl eq_refl eq_refl)).
Defined.

(** C2 as stated fails on a raw result: the SDK's refund hands back a
    [dict] with an error object, and [handle_api_response] returns it
    instead of failing. *)
Lemma handle_api_response_raw_error_returned :
  Sample.gateway_raw_error (calls Sample.w0)
      (payment_refund Sample.client "pay_123" None)
    = Return (Other Sample.error_body)
  /\ embedded_error Sample.error_body
     = Some ("BAD_REQUEST_ERROR", "amount must be at least INR 1.00")
  /\ fst (handle_api_response Sample.gateway_raw_error
            (Some (payment_refund Sample.client "pay_123" None)) Sample.w0)
     = Return Sample.error_body
  /\ fst (handle_api_response Sample.gateway_raw_error
            (Some (payment_refund Sample.client "pay_123" None)) Sample.w0)
     <> Raise (ValidationError "BAD_REQUEST_ERROR- amount must be at least INR 1.00").
Proof. repeat split; try reflexivity. cbn. discriminate. Qed.

Lemma handle_api_response_transport_failure_witness :
  Sample.gateway_down (calls Sample.w0) (probe "rzp_test_key" "s3cr3t")
    = Raise (ExternalError "ConnectionError" "Max retries exceeded with url: /v1/")
  /\ fst (handle_api_response Sample.gateway_down
            (Some (probe "rzp_test_key" "s3cr3t")) Sample.w0)
     = Raise (ValidationError "Something Bad Happened !")
  /\ error_log (snd (handle_api_response Sample.gateway_down
                       (Some (probe "rzp_test_key" "s3cr3t")) Sample.w0))
     = [LogException
          (ExternalError "ConnectionError" "Max retries exceeded with url: /v1/")].
Proof.
  split; [reflexivity|].
  destruct (handle_api_response_transport_failure
              Sample.gateway_down (probe "rzp_test_key" "s3cr3t")
              (ExternalError "ConnectionError" "Max retries exceeded with url: /v1/")
              Sample.w0 eq_refl) as [Hmsg [Hlog _]].
  split; [exact Hmsg | exact Hlog].
Defined.

(** C3 as stated fails on the message: it ends in [" !"]. *)
Lemma handle_api_response_message_differs :
  Sample.gateway_down (calls Sample.w0) (probe "rzp_test_key" "s3cr3t")
    = Raise (ExternalError "ConnectionError" "Max retries exceeded with url: /v1/")
  /\ fst (handle_api_response Sample.gateway_down
            (Some (probe "rzp_test_key" "s3cr3t")) Sample.w0)
     <> Raise (ValidationError "Something Bad Happened").
Proof. split; [reflexivity|]. cbn. discriminate. Qed.

Lemma init_fails_atomically_witness :
  probe_rejected (Sample.gateway_401 (calls Sample.w0) (probe "rzp_test_key" "wrong"))
    = true
  /\ exists e w',
       __init__ Sample.gateway_401 "rzp_test_key" "wrong" Sample.w0 = (Raise e, w')
       /\ sdk_clients w' = sdk_clients Sample.w0
       /\ calls w' = calls Sample.w0 ++ [probe "rzp_test_key" "wrong"].
Proof.
  split; [reflexivity|].
  exact (init_fails_atomically Sample.gateway_401 "rzp_test_key" "wrong" Sample.w0
                               eq_refl).
Defined.

(** C9 as stated fails on a status that is not a success with a body
    that holds no error: the probe is answered 500 with [{}], and
    [__init__] returns the instance with its SDK client. *)
Lemma init_succeeds_on_http_500 :
  Sample.gateway_500 (calls Sample.w0) (probe "rzp_test_key" "s3cr3t")
    = Return (IsResponse {| status_code := 500; json_body := Some (PyDict []) |})
  /\ success_status 500 = false
  /\ __init__ Sample.gateway_500 "rzp_test_key" "s3cr3t" Sample.w0
     = (Return Sample.self,
        {| calls := [probe "rzp_test_key" "s3cr3t"]; error_log := [];
           uuids_drawn := 0; sdk_clients := [Sample.client] |}).
Proof. repeat split. Qed.



Lemma create_payment_link_amount_times_100_witness :
  (0 < 500)%Z
  /\ exists payload,
       calls (snd (_create_payment_link Sample.gateway_ok Sample.uuid4 Sample.get_url
                     Sample.self (Some 500%Z) "payment_links" default_kwargs Sample.w0))
       = calls Sample.w0
         ++ [requests_post "https://api.razorpay.com/v1/payment_links"
                           ("rzp_test_key", "s3cr3t") (PyDict payload)
                           content_type_capital]
       /\ lookup "amount" payload = Some (PyInt 50000).
Proof.
  split; [lia|].
  exact (create_payment_link_amount_times_100
           Sample.gateway_ok Sample.uuid4 Sample.get_url Sample.self 500%Z
           "payment_links" default_kwargs Sample.w0 eq_refl).
Defined.

Lemma refund_payment_full_or_partial_witness :
  "pay_123" <> ""
  /\ rzp_client Sample.self = Some Sample.client
  /\ calls (snd (refund_payment Sample.gateway_ok Sample.self "pay_123" (Some 0%Z)
                                Sample.w0))
     = [payment_refund Sample.client "pay_123" None]
  /\ calls (snd (refund_payment Sample.gateway_ok Sample.self "pay_123" None Sample.w0))
     = [payment_refund Sample.client "pay_123" None]
  /\ calls (snd (refund_payment Sample.gateway_ok Sample.self "pay_123" (Some 7%Z)
                                Sample.w0))
     = [payment_refund Sample.client "pay_123" (Some 700%Z)].
Proof.
  assert (Hid : "pay_123" <> "") by discriminate.
  destruct (refund_payment_full_or_partial
              Sample.gateway_ok Sample.self Sample.client "pay_123" Sample.w0
              Hid eq_refl) as [Hfull Hpart].
  split; [exact Hid|]. split; [reflexivity|].
  split; [exact (proj2 (Hfull (Some 0%Z) (or_intror eq_refl)))|].
  split; [exact (proj2 (Hfull None (or_introl eq_refl)))|].
  exact (proj2 (Hpart 7%Z eq_refl)).
Defined.

Lemma refund_payment_negative_amount_witness :
  "pay_123" <> ""
  /\ rzp_client Sample.self = Some Sample.client
  /\ (-5 < 0)%Z
  /\ calls (snd (refund_payment Sample.gateway_raw_error Sample.self "pay_123"
                                (Some (-5)%Z) Sample.w0))
     = [payment_refund Sample.client "pay_123" (Some (-500)%Z)]
  /\ fst (refund_payment Sample.gateway_raw_error Sample.self "pay_123"
                         (Some (-5)%Z) Sample.w0)
     = Return Sample.error_body.
Proof.
  assert (Hid : "pay_123" <> "") by discriminate.
  destruct (refund_payment_negative_amount
              Sample.gateway_raw_error Sample.self Sample.client "pay_123" (-5)%Z
              Sample.w0 Hid eq_refl eq_refl) as [_ [Hcalls [_ Hback]]].
  split; [exact Hid|]. split; [reflexivity|]. split; [lia|].
  split; [exact Hcalls | exact (Hback Sample.error_body eq_refl)].
Defined.

(** C8, at the id ["plink_1"] on an instance [__init__] has built: the
    URL of the GET has two slashes between the base URL's [v1] and
    [payment_links], so it is not the path [payment_links/plink_1] under
    the base URL, the one the sibling calls would build by appending to
    the base URL. *)
Theorem get_or_create_payment_link_fetch_url :
  exists self w1,
    __init__ Sample.gateway_ok "rzp_test_key" "s3cr3t" Sample.w0 = (Return self, w1)
    /\ calls (snd (get_or_create_payment_link Sample.gateway_ok Sample.uuid4
                     Sample.get_url self "plink_1" None default_kwargs w1))
       = calls w1
         ++ [requests_get "https://api.razorpay.com/v1//payment_links/plink_1"
                          ("rzp_test_key", "s3cr3t") content_type_lower]
    /\ "https://api.razorpay.com/v1//payment_links/plink_1"
       <> (base_api_url self ++ "payment_links/" ++ "plink_1")%string.
Proof.
  eexists. eexists. split; [reflexivity|]. split; [reflexivity|].
  cbn. discriminate.
Qed.

(* ================================================================== *)
(** ** More on the response normalizer *)

Section Normalizer.

Variable gateway : list partial -> partial -> result returned.


(** X2. A [ValidationError] out of [handle_api_response] is always
    logged, and has one of two origins: the call raised, the exception is
    the entry logged and the message is the fixed one; or the body of the
    response held an error object with a code and a description, that
    object is the entry logged and the message is made of the two. *)
Theorem handle_api_response_validation_error (f : partial) (msg : string)
    (w w' : world)
    (H : handle_api_response gateway (Some f) w = (Raise (ValidationError msg), w')) :
  (exists e,
      gateway (calls w) f = Raise e
      /\ msg = "Something Bad Happened !"
      /\ w' = add_log (LogException e) (add_call f w))
  \/ (exists r body code descr e,
         gateway (calls w) f = Return (IsResponse r)
         /\ json_body r = Some body
         /\ embedded_error body = Some (code, descr)
         /\ body_error body = Some (PyDict e)
         /\ msg = (code ++ "- " ++ descr)%string
         /\ w' = add_log (LogValue (PyDict e)) (add_call f w)).
Proof.
  revert H. run.
  destruct (gateway (calls w) f) as [[r|v']|e] eqn:G; cbn; try discriminate.
  - destruct (json_body r) as [body|] eqn:B; cbn; try discriminate.
    destruct body as [| | | | |d]; cbn; try discriminate.
    destruct (lookup "error" d) as [err|] eqn:L; cbn; try discriminate.
    destruct (truthy err) eqn:T; cbn; try discriminate.
    destruct err as [| | | | |ed]; cbn; try discriminate.
    destruct (lookup "code" ed) as [[| | |c| |]|] eqn:Lc; cbn; try discriminate.
    destruct (lookup "description" ed) as [[| | |t| |]|] eqn:Lt; cbn; try discriminate.
    intros H. injection H as <- <-. right.
    exists r, (PyDict d), c, t, ed.
    repeat split; try assumption.
    + unfold embedded_error. now rewrite L, Lc, Lt.
    + now rewrite append_assoc.
  - intros H. injection H as <- <-. left. exists e. auto.
Qed.

(** X3. The body of a response is parsed outside the [try]: when it is
    not JSON the [JSONDecodeError] of [.json()] reaches the caller, when
    it is JSON but no object the [AttributeError] of [.get] does; nothing
    is logged in either case. *)
Theorem handle_api_response_body_not_an_object (f : partial) (r : Response)
    (w : world) (H : gateway (calls w) f = Return (IsResponse r)) :
  (json_body r = None ->
   handle_api_response gateway (Some f) w = (Raise JSONDecodeError, add_call f w))
  /\ (forall body,
         json_body r = Some body ->
         (forall d, body <> PyDict d) ->
         handle_api_response gateway (Some f) w
           = (Raise (AttributeError "object has no attribute 'get'"), add_call f w)).
Proof.
  split.
  - intros B. run. rewrite H. cbn. rewrite B. reflexivity.
  - intros body B N. run. rewrite H. cbn. rewrite B. cbn.
    destruct body as [| | | | |d]; try reflexivity.
    exfalso. exact (N d eq_refl).
Qed.

(** X4. When the body holds something true under ["error"] that is not
    an object with a code and a description that are strings, the error
    is logged and then a [TypeError] or an [AttributeError] reaches the
    caller, not a [ValidationError]. *)
Theorem handle_api_response_malformed_error (f : partial) (r : Response)
    (body e : pyval) (w : world)
    (H : gateway (calls w) f = Return (IsResponse r))
    (B : json_body r = Some body)
    (E : body_error body = Some e)
    (T : truthy e = true)
    (N : embedded_error body = None) :
  exists x,
    handle_api_response gateway (Some f) w
      = (Raise x, add_log (LogValue e) (add_call f w))
    /\ (x = TypeError "unsupported operand type(s) for +"
        \/ x = AttributeError "object has no attribute 'get'").
Proof.
  destruct body as [| | | | |d]; try discriminate. cbn in E.
  unfold embedded_error in N. rewrite E in N.
  run. rewrite H. cbn. rewrite B. cbn. rewrite E, T. cbn.
  destruct e as [| | | | |ed]; cbn; eauto.
  destruct (lookup "code" ed) as [[| | |c| |]|]; cbn; eauto.
  destruct (lookup "description" ed) as [[| | |t| |]|]; cbn; eauto.
  discriminate.
Qed.

End Normalizer.

(* ================================================================== *)
(** ** More on the gateway client *)

Section Client.

Variable gateway : list partial -> partial -> result returned.
Variable uuid4 : nat -> string.
Variable get_url : string -> string.

(** [handle_api_response] draws no UUID. *)
Lemma handle_api_response_uuids (f : option partial) (w : world) :
  uuids_drawn (snd (handle_api_response gateway f w)) = uuids_drawn w.
Proof.
  destruct f as [f|]; [|reflexivity].
  run. destruct (gateway (calls w) f) as [[r|v]|e]; cbn; auto.
  destruct (json_body r) as [body|]; cbn; auto.
  destruct body as [| | | | |d]; cbn; auto.
  destruct (truthy _); cbn; auto.
  destruct (lookup "error" d) as [[| | | | |err]|]; cbn; auto.
  destruct (lookup "code" err) as [[| | |c| |]|]; cbn; auto.
  destruct (lookup "description" err) as [[| | |t| |]|]; cbn; auto.
Qed.

(** X5. When [__init__] returns, the probe was not rejected; the instance
    holds the key and the secret, the base URL and an SDK client made
    with the same key and secret; the probe is the one call made, one SDK
    client was constructed and nothing was logged. *)
Theorem init_returns_instance (api_key' api_secret' : string)
    (self : RazorpayPayment) (w w' : world)
    (H : __init__ gateway api_key' api_secret' w = (Return self, w')) :
  probe_rejected (gateway (calls w) (probe api_key' api_secret')) = false
  /\ auth self = {| api_key := api_key'; api_secret := api_secret' |}
  /\ base_api_url self = "https://api.razorpay.com/v1/"
  /\ rzp_client self = Some {| client_auth := (api_key', api_secret') |}
  /\ calls w' = calls w ++ [probe api_key' api_secret']
  /\ sdk_clients w' = sdk_clients w ++ [{| client_auth := (api_key', api_secret') |}]
  /\ error_log w' = error_log w.
Proof.
  destruct (probe_rejected (gateway (calls w) (probe api_key' api_secret'))) eqn:P.
  - exfalso.
    destruct (handle_api_response_rejected gateway _ w P) as [e [w1 [Run _]]].
    revert H. unfold __init__, bind.
    rewrite validate_razorpay_creds_probe, Run. discriminate.
  - rewrite (init_succeeds gateway api_key' api_secret' w P) in H.
    injection H as <- <-. repeat split.
Qed.

(** X6. With a payment id and its SDK client, [get_payment] makes the one
    call that fetches the payment: what the SDK returns is returned as it
    is, and an exception of the SDK is logged and replaced by the fixed
    message. *)
Theorem get_payment_fetches (self : RazorpayPayment) (client : Client)
    (payment_id : string) (w : world)
    (Hid : payment_id <> "") (Hc : rzp_client self = Some client) :
  calls (snd (get_payment gateway self payment_id w))
    = calls w ++ [payment_fetch client payment_id]
  /\ (forall v,
         gateway (calls w) (payment_fetch client payment_id) = Return (Other v) ->
         get_payment gateway self payment_id w
           = (Return v, add_call (payment_fetch client payment_id) w))
  /\ (forall e,
         gateway (calls w) (payment_fetch client payment_id) = Raise e ->
         get_payment gateway self payment_id w
           = (Raise (ValidationError "Something Bad Happened !"),
              add_log (LogException e) (add_call (payment_fetch client payment_id) w))).
Proof.
  assert (E : get_payment gateway self payment_id w
              = handle_api_response gateway (Some (payment_fetch client payment_id)) w).
  { unfold get_payment, self_rzp_client. rewrite (truthy_str _ Hid), Hc. reflexivity. }
  rewrite E. split; [apply (proj1 (handle_api_response_calls gateway _ _))|].
  split; intros x Hx.
  - now apply handle_api_response_other.
  - now apply handle_api_response_except.
Qed.

(** X7. On the instance [__init__] returns, [get_payment] with a payment
    id calls the SDK client that carries the key and the secret the
    instance was made with; the probe and this fetch are the two calls
    made since construction began. *)
Theorem get_payment_after_init (api_key' api_secret' payment_id : string)
    (self : RazorpayPayment) (w w1 : world)
    (Hinit : __init__ gateway api_key' api_secret' w = (Return self, w1))
    (Hid : payment_id <> "") :
  calls (snd (get_payment gateway self payment_id w1))
  = calls w ++ [probe api_key' api_secret';
                payment_fetch {| client_auth := (api_key', api_secret') |} payment_id].
Proof.
  destruct (probe_rejected (gateway (calls w) (probe api_key' api_secret'))) eqn:P.
  - exfalso.
    destruct (handle_api_response_rejected gateway _ w P) as [e [w2 [Run _]]].
    revert Hinit. unfold __init__, bind.
    rewrite validate_razorpay_creds_probe, Run. discriminate.
  - rewrite (init_succeeds gateway api_key' api_secret' w P) in Hinit.
    injection Hinit as <- <-.
    unfold get_payment, self_rzp_client. rewrite (truthy_str _ Hid).
    cbn [negb rzp_client bind ret].
    rewrite (proj1 (handle_api_response_calls gateway _ _)).
    cbn [calls add_client add_call]. now rewrite <- app_assoc.
Qed.

(** X8. When the SDK's refund raises, whatever the amount, the caller of
    [refund_payment] gets the fixed message and the exception is logged. *)
Theorem refund_payment_sdk_failure (self : RazorpayPayment) (client : Client)
    (payment_id : string) (refund_amt : option Z) (e : exn) (w : world)
    (Hid : payment_id <> "") (Hc : rzp_client self = Some client)
    (He : forall amount,
        gateway (calls w) (payment_refund client payment_id amount) = Raise e) :
  fst (refund_payment gateway self payment_id refund_amt w)
    = Raise (ValidationError "Something Bad Happened !")
  /\ error_log (snd (refund_payment gateway self payment_id refund_amt w))
     = error_log w ++ [LogException e].
Proof.
  rewrite (refund_payment_call gateway self client payment_id _ w Hid Hc).
  rewrite (handle_api_response_except gateway _ e w (He _)). split; reflexivity.
Qed.

(** What [_create_payment_link] does with an amount it accepts. *)
Lemma create_payment_link_accepted (self : RazorpayPayment) (a : Z)
    (api_endpoint : string) (kw : link_kwargs) (w : world) :
  (0 < a)%Z ->
  exists payload,
    _create_payment_link gateway uuid4 get_url self (Some a) api_endpoint kw w
    = handle_api_response gateway
        (Some (requests_post (base_api_url self ++ api_endpoint)%string
                             (tuple (auth self)) (PyDict payload) content_type_capital))
        (if reference_id kw =? "" then add_uuid w else w)
    /\ map fst payload
       = ["amount"; "callback_url"; "callback_method"; "currency"; "customer";
          "description"; "expire_by"; "notify"; "reference_id"; "notes"]
    /\ lookup "callback_url" payload
       = Some (PyStr (if callback_url kw =? "" then get_url "razorpay_payment_status"
                      else callback_url kw))
    /\ lookup "reference_id" payload
       = Some (PyStr (if reference_id kw =? "" then uuid4 (uuids_drawn w)
                      else reference_id kw))
    /\ lookup "currency" payload = Some (PyStr "INR")
    /\ lookup "callback_method" payload = Some (PyStr "get")
    /\ lookup "customer" payload
       = Some (PyDict [("name", PyStr (payer_name kw));
                       ("email", PyStr (payer_email kw));
                       ("phone", PyStr (payer_phone kw))])
    /\ lookup "notify" payload
       = Some (PyDict [("sms", PyBool (notify_via_sms kw));
                       ("email", PyBool (notify_via_email kw))])
    /\ lookup "description" payload = Some (PyStr (description kw))
    /\ lookup "expire_by" payload = Some (PyInt (expire_by kw))
    /\ lookup "notes" payload
       = Some (PyDict (map (fun kv => (fst kv, PyStr (snd kv))) (notes kw))).
Proof.
  intros H. unfold _create_payment_link.
  rewrite (truthy_int a) by lia.
  assert ((a <? 1)%Z = false) as -> by (apply Z.ltb_ge; lia).
  cbn [negb orb truthy]. unfold bind at 1.
  destruct (callback_url kw =? "")%string; cbn [negb ret];
    unfold bind at 1;
    destruct (reference_id kw =? "")%string; cbn [negb ret str_uuid4];
    eexists; repeat split.
Qed.

(** X9. For an amount it accepts, [_create_payment_link] sends the
    caller's [callback_url] when it is not empty, and the site's URL of
    [razorpay_payment_status] when it is. *)
Theorem create_payment_link_callback_url (self : RazorpayPayment) (a : Z)
    (api_endpoint : string) (kw : link_kwargs) (w : world) (H : (0 < a)%Z) :
  exists payload,
    calls (snd (_create_payment_link gateway uuid4 get_url self (Some a)
                                     api_endpoint kw w))
    = calls w ++ [requests_post (base_api_url self ++ api_endpoint)%string
                                (tuple (auth self)) (PyDict payload)
                                content_type_capital]
    /\ (callback_url kw <> "" ->
        lookup "callback_url" payload = Some (PyStr (callback_url kw)))
    /\ (callback_url kw = "" ->
        lookup "callback_url" payload
          = Some (PyStr (get_url "razorpay_payment_status"))).
Proof.
  destruct (create_payment_link_accepted self a api_endpoint kw w H)
    as [payload [Run [_ [Cb _]]]].
  exists payload. rewrite Run, (proj1 (handle_api_response_calls gateway _ _)).
  split; [now destruct (reference_id kw =? "")%string|].
  split; intros E.
  - apply String.eqb_neq in E. now rewrite E in Cb.
  - rewrite E in Cb. exact Cb.
Qed.

(** X10. For an amount it accepts, [_create_payment_link] sends the
    caller's [reference_id] when it is not empty and draws no UUID; when
    it is empty it draws one UUID and sends it. *)
Theorem create_payment_link_reference_id (self : RazorpayPayment) (a : Z)
    (api_endpoint : string) (kw : link_kwargs) (w : world) (H : (0 < a)%Z) :
  exists call,
    calls (snd (_create_payment_link gateway uuid4 get_url self (Some a)
                                     api_endpoint kw w))
    = calls w ++ [call]
    /\ (reference_id kw <> "" ->
        sent_reference_id call = Some (PyStr (reference_id kw))
        /\ uuids_drawn (snd (_create_payment_link gateway uuid4 get_url self (Some a)
                                                  api_endpoint kw w))
           = uuids_drawn w)
    /\ (reference_id kw = "" ->
        sent_reference_id call = Some (PyStr (uuid4 (uuids_drawn w)))
        /\ uuids_drawn (snd (_create_payment_link gateway uuid4 get_url self (Some a)
                                                  api_endpoint kw w))
           = S (uuids_drawn w)).
Proof.
  destruct (create_payment_link_accepted self a api_endpoint kw w H)
    as [payload [Run [_ [_ [Ref _]]]]].
  eexists. rewrite Run, (proj1 (handle_api_response_calls gateway _ _)),
             handle_api_response_uuids.
  split; [now destruct (reference_id kw =? "")%string|].
  cbn [sent_reference_id]. split; intros E.
  - apply String.eqb_neq in E. rewrite E in *. split; [exact Ref | reflexivity].
  - rewrite E in *. cbn in *. split; [exact Ref | reflexivity].
Qed.

(** X11. Two calls of [_create_payment_link] in a row, both without a
    [reference_id], send the UUID drawn first and the UUID drawn next:
    two reference ids that differ as soon as these two UUIDs do. *)
Theorem create_payment_link_twice_fresh_reference (self : RazorpayPayment)
    (a1 a2 : Z) (e1 e2 : string) (kw1 kw2 : link_kwargs) (w : world)
    (H1 : (0 < a1)%Z) (H2 : (0 < a2)%Z)
    (R1 : reference_id kw1 = "") (R2 : reference_id kw2 = "") :
  exists c1 c2,
    calls (snd (_create_payment_link gateway uuid4 get_url self (Some a2) e2 kw2
                  (snd (_create_payment_link gateway uuid4 get_url self (Some a1)
                                             e1 kw1 w))))
    = calls w ++ [c1; c2]
    /\ sent_reference_id c1 = Some (PyStr (uuid4 (uuids_drawn w)))
    /\ sent_reference_id c2 = Some (PyStr (uuid4 (S (uuids_drawn w))))
    /\ (uuid4 (uuids_drawn w) <> uuid4 (S (uuids_drawn w)) ->
        sent_reference_id c1 <> sent_reference_id c2).
Proof.
  destruct (create_payment_link_accepted self a1 e1 kw1 w H1)
    as [p1 [Run1 [_ [_ [Ref1 _]]]]].
  set (w1 := snd (_create_payment_link gateway uuid4 get_url self (Some a1) e1 kw1 w)).
  assert (C1 : calls w1
               = calls w ++ [requests_post (base_api_url self ++ e1)%string
                                           (tuple (auth self)) (PyDict p1)
                                           content_type_capital]).
  { unfold w1. rewrite Run1, (proj1 (handle_api_response_calls gateway _ _)).
    now rewrite R1. }
  assert (U1 : uuids_drawn w1 = S (uuids_drawn w)).
  { unfold w1. rewrite Run1, handle_api_response_uuids. now rewrite R1. }
  destruct (create_payment_link_accepted self a2 e2 kw2 w1 H2)
    as [p2 [Run2 [_ [_ [Ref2 _]]]]].
  rewrite R1 in Ref1. rewrite R2, U1 in Ref2. cbn in Ref1, Ref2.
  eexists. eexists.
  rewrite Run2, (proj1 (handle_api_response_calls gateway _ _)), R2.
  cbn [String.eqb calls add_uuid]. rewrite C1, <- app_assoc.
  split; [reflexivity|]. cbn [sent_reference_id].
  split; [exact Ref1|]. split; [exact Ref2|].
  intros N. rewrite Ref1, Ref2. intros E. injection E as E. contradiction.
Qed.

(** X12. The body [_create_payment_link] sends has the ten members of a
    payment link in a fixed order; the currency is always INR and the
    callback method [get]; the payer, the notification flags, the
    description, the expiry and the notes are the caller's. *)
Theorem create_payment_link_body (self : RazorpayPayment) (a : Z)
    (api_endpoint : string) (kw : link_kwargs) (w : world) (H : (0 < a)%Z) :
  exists payload,
    calls (snd (_create_payment_link gateway uuid4 get_url self (Some a)
                                     api_endpoint kw w))
    = calls w ++ [requests_post (base_api_url self ++ api_endpoint)%string
                                (tuple (auth self)) (PyDict payload)
                                content_type_capital]
    /\ map fst payload
       = ["amount"; "callback_url"; "callback_method"; "currency"; "customer";
          "description"; "expire_by"; "notify"; "reference_id"; "notes"]
    /\ lookup "currency" payload = Some (PyStr "INR")
    /\ lookup "callback_method" payload = Some (PyStr "get")
    /\ lookup "customer" payload
       = Some (PyDict [("name", PyStr (payer_name kw));
                       ("email", PyStr (payer_email kw));
                       ("phone", PyStr (payer_phone kw))])
    /\ lookup "notify" payload
       = Some (PyDict [("sms", PyBool (notify_via_sms kw));
                       ("email", PyBool (notify_via_email kw))])
    /\ lookup "description" payload = Some (PyStr (description kw))
    /\ lookup "expire_by" payload = Some (PyInt (expire_by kw))
    /\ lookup "notes" payload
       = Some (PyDict (map (fun kv => (fst kv, PyStr (snd kv))) (notes kw))).
Proof.
  destruct (create_payment_link_accepted self a api_endpoint kw w H)
    as [payload [Run [Keys [_ [_ Rest]]]]].
  exists payload. rewrite Run, (proj1 (handle_api_response_calls gateway _ _)).
  split; [now destruct (reference_id kw =? "")%string|].
  split; [exact Keys | exact Rest].
Qed.

(** X13. When the gateway answers the create request with an error object
    in the body, the caller of [_create_payment_link] gets the failure
    made of its code and its description. *)
Theorem create_payment_link_gateway_error (self : RazorpayPayment) (a : Z)
    (api_endpoint : string) (kw : link_kwargs) (w : world) (r : Response)
    (body : pyval) (code descr : string)
    (H : (0 < a)%Z)
    (G : forall history call, gateway history call = Return (IsResponse r))
    (B : json_body r = Some body)
    (E : embedded_error body = Some (code, descr)) :
  fst (_create_payment_link gateway uuid4 get_url self (Some a) api_endpoint kw w)
  = Raise (ValidationError (code ++ "- " ++ descr)%string).
Proof.
  destruct (create_payment_link_accepted self a api_endpoint kw w H)
    as [payload [Run _]].
  rewrite Run.
  match goal with
  | |- context [handle_api_response _ (Some ?f) ?w1] =>
      destruct (handle_api_response_error gateway f r body code descr w1
                  (G (calls w1) f) B E) as [e [_ Run']]
  end.
  now rewrite Run'.
Qed.

(** X14. With a payment link id, [get_or_create_payment_link] does the
    same whatever the amount and the other arguments are: it makes one
    call, a GET with the key and the secret, and draws no UUID. *)
Theorem get_or_create_payment_link_fetch_ignores (self : RazorpayPayment)
    (payment_link_id : string) (a1 a2 : option Z) (kw1 kw2 : link_kwargs)
    (w : world) (Hid : payment_link_id <> "") :
  get_or_create_payment_link gateway uuid4 get_url self payment_link_id a1 kw1 w
  = get_or_create_payment_link gateway uuid4 get_url self payment_link_id a2 kw2 w
  /\ uuids_drawn (snd (get_or_create_payment_link gateway uuid4 get_url self
                         payment_link_id a1 kw1 w))
     = uuids_drawn w
  /\ exists url,
       calls (snd (get_or_create_payment_link gateway uuid4 get_url self
                     payment_link_id a1 kw1 w))
       = calls w ++ [requests_get url (tuple (auth self)) content_type_lower].
Proof.
  rewrite !(get_or_create_payment_link_fetch gateway uuid4 get_url self
              payment_link_id _ _ w Hid).
  split; [reflexivity|]. split; [apply handle_api_response_uuids|].
  eexists. apply (proj1 (handle_api_response_calls gateway _ _)).
Qed.

(** X15. Without a payment link id, [get_or_create_payment_link] never
    fetches: it makes no call when the amount is not given (a
    [TypeError]) or not positive (the validation error), and otherwise
    one POST to [payment_links] under the base URL. *)
Theorem get_or_create_payment_link_without_id (self : RazorpayPayment)
    (kwargs : link_kwargs) (w : world) :
  get_or_create_payment_link gateway uuid4 get_url self "" None kwargs w
  = (Raise (TypeError
              "_create_payment_link() missing 1 required positional argument: 'amount'"),
     w)
  /\ (forall a,
         (a <= 0)%Z ->
         get_or_create_payment_link gateway uuid4 get_url self "" (Some a) kwargs w
         = (Raise (ValidationError
                     "Amount (INT) is required for creating a payment link !"), w))
  /\ (forall a,
         (0 < a)%Z ->
         exists payload,
           calls (snd (get_or_create_payment_link gateway uuid4 get_url self ""
                                                  (Some a) kwargs w))
           = calls w ++ [requests_post (base_api_url self ++ "payment_links")%string
                                       (tuple (auth self)) (PyDict payload)
                                       content_type_capital]).
Proof.
  split; [reflexivity|]. split; intros a Ha.
  - rewrite get_or_create_payment_link_create. unfold _create_payment_link.
    assert ((a <? 1)%Z = true) as -> by (apply Z.ltb_lt; lia).
    rewrite orb_true_r. reflexivity.
  - rewrite get_or_create_payment_link_create.
    destruct (create_payment_link_accepted self a "payment_links" kwargs w Ha)
      as [payload [Run _]].
    exists payload. rewrite Run, (proj1 (handle_api_response_calls gateway _ _)).
    now destruct (reference_id kwargs =? "")%string.
Qed.

End Client.

(* ================================================================== *)
(** ** More on the signature verifier *)

Lemma sha256_length (data : bytes) : List.length (sha256 data) = 32%nat.
Proof.
  unfold sha256. rewrite length_map. unfold SHA256.hash.
  destruct (fold_left SHA256.compress _ SHA256.init)
    as [[[[[[[a b] c] d] e] f] g] h].
  reflexivity.
Qed.

Lemma hex_length (bs : bytes) : String.length (hex bs) = (2 * List.length bs)%nat.
Proof. induction bs as [|b bs IH]; [reflexivity|]. cbn [hex String.length List.length]. lia. Qed.

Lemma hex_digit_lower (b : byte) :
  is_lower_hex (hex_digit (Byte.to_N b / 16)) = true
  /\ is_lower_hex (hex_digit (Byte.to_N b mod 16)) = true.
Proof. destruct b; vm_compute; split; reflexivity. Qed.

Lemma hex_lower (bs : bytes) :
  forallb is_lower_hex (list_ascii_of_string (hex bs)) = true.
Proof.
  induction bs as [|b bs IH]; [reflexivity|].
  cbn [hex list_ascii_of_string forallb].
  destruct (hex_digit_lower b) as [-> ->]. exact IH.
Qed.

(** A signature [verify_payment_signature] accepts is the digest. *)
Lemma verify_payment_signature_accepts
    (self : RazorpayPayment) (link_id ref_id status payment_id signature : string)
    (raise_err : bool) (w : world) :
  fst (verify_payment_signature self link_id ref_id status payment_id signature
                                raise_err w) = Return true ->
  reference_signature (api_secret (auth self)) link_id ref_id status payment_id
    = signature.
Proof.
  rewrite verify_payment_signature_compares. unfold bind, compare_digest.
  destruct (isascii _ && isascii signature); cbn; [|discriminate].
  destruct (String.eqb_spec
              (reference_signature (api_secret (auth self)) link_id ref_id status
                                   payment_id) signature) as [E|N]; [auto|].
  destruct raise_err; cbn; discriminate.
Qed.

(** X16. [verify_payment_signature] changes nothing, whatever it is given
    and whatever it answers: no call, no log entry, no UUID, no client. *)
Theorem verify_payment_signature_changes_nothing
    (self : RazorpayPayment) (link_id ref_id status payment_id signature : string)
    (raise_err : bool) (w : world) :
  snd (verify_payment_signature self link_id ref_id status payment_id signature
                                raise_err w) = w.
Proof.
  rewrite verify_payment_signature_compares. unfold bind, compare_digest.
  destruct (isascii _ && isascii signature); cbn; [|reflexivity].
  destruct (_ =? signature)%string; [reflexivity|].
  destruct raise_err; reflexivity.
Qed.

(** X17. A signature [verify_payment_signature] accepts has 64 characters,
    all of them digits or the letters [a] to [f] in lower case: the same
    digest written in upper case is not accepted. *)
Theorem verify_payment_signature_accepts_lower_hex
    (self : RazorpayPayment) (link_id ref_id status payment_id signature : string)
    (raise_err : bool) (w : world)
    (H : fst (verify_payment_signature self link_id ref_id status payment_id
                                       signature raise_err w) = Return true) :
  String.length signature = 64%nat
  /\ forallb is_lower_hex (list_ascii_of_string signature) = true.
Proof.
  apply verify_payment_signature_accepts in H. subst signature.
  unfold reference_signature, rfc2104_hmac_sha256. split.
  - now rewrite hex_length, sha256_length.
  - apply hex_lower.
Qed.

(** X18. The four fields are joined without escaping the separator:
    moving a [|] and what follows it from the end of one field to the
    front of the next leaves the answer as it is. *)
Theorem verify_payment_signature_separator_shift
    (self : RazorpayPayment) (a b c d x signature : string)
    (raise_err : bool) (w : world) :
  verify_payment_signature self (a ++ "|" ++ x) b c d signature raise_err w
    = verify_payment_signature self a (x ++ "|" ++ b) c d signature raise_err w
  /\ verify_payment_signature self a (b ++ "|" ++ x) c d signature raise_err w
     = verify_payment_signature self a b (x ++ "|" ++ c) d signature raise_err w
  /\ verify_payment_signature self a b (c ++ "|" ++ x) d signature raise_err w
     = verify_payment_signature self a b c (x ++ "|" ++ d) signature raise_err w.
Proof.
  unfold verify_payment_signature. rewrite !append_assoc. repeat split.
Qed.

(** X19. With [raise_err] the function never returns [False], without it
    the function never raises the verification failure, and the two
    accept the same signatures. *)
Theorem verify_payment_signature_raise_err
    (self : RazorpayPayment) (link_id ref_id status payment_id signature : string)
    (w : world) :
  fst (verify_payment_signature self link_id ref_id status payment_id signature
                                true w) <> Return false
  /\ (forall msg,
         fst (verify_payment_signature self link_id ref_id status payment_id
                                       signature false w)
         <> Raise (ValidationError msg))
  /\ (fst (verify_payment_signature self link_id ref_id status payment_id signature
                                    true w) = Return true
      <-> fst (verify_payment_signature self link_id ref_id status payment_id
                                        signature false w) = Return true).
Proof.
  rewrite !verify_payment_signature_compares. unfold bind, compare_digest.
  destruct (isascii _ && isascii signature); cbn.
  - destruct (_ =? signature)%string; cbn.
    + repeat split; discriminate.
    + repeat split; discriminate.
  - repeat split; discriminate.
Qed.

(* ================================================================== *)
(** ** The updates of the payment log *)

Section PaymentLog.

Import RazorpayPaymentLog.

Variable sql_eq : string -> string -> bool.

Lemma update_where_nth (value : string) (cond : row -> bool) (t : table) (i : nat) :
  nth_error (update_set_status_where value cond t) i
  = option_map (fun r => if cond r then set_status value r else r) (nth_error t i).
Proof. unfold update_set_status_where. apply nth_error_map. Qed.

Lemma update_where_none (value : string) (cond : row -> bool) (t : table) :
  forallb (fun r => negb (cond r)) t = true ->
  update_set_status_where value cond t = t.
Proof.
  induction t as [|r t IH]; [reflexivity|].
  cbn [forallb update_set_status_where map]. intros H.
  apply andb_true_iff in H as [Hr Ht]. apply negb_true_iff in Hr.
  rewrite Hr. f_equal. exact (IH Ht).
Qed.

Lemma update_where_frame (value : string) (cond : row -> bool) (t : table) :
  map name (update_set_status_where value cond t) = map name t
  /\ map columns (update_set_status_where value cond t) = map columns t.
Proof.
  unfold update_set_status_where. rewrite !map_map.
  split; apply map_ext; intros r; destruct (cond r); reflexivity.
Qed.

(** X20. After [update_failed_payment_log_status_to_refund] no row has a
    status the database takes for ["Failed"], provided it does not take
    ["Refund"] for ["Failed"]. *)
Theorem update_failed_leaves_no_failed (t : table)
    (H : sql_eq "Refund" "Failed" = false) :
  forallb (fun r => negb (status_is sql_eq "Failed" r))
          (snd (update_failed_payment_log_status_to_refund sql_eq t)) = true.
Proof.
  cbn [snd update_failed_payment_log_status_to_refund].
  induction t as [|r t IH]; [reflexivity|].
  cbn [update_set_status_where map forallb]. apply andb_true_iff. split; [|exact IH].
  destruct (status_is sql_eq "Failed" r) eqn:F.
  - unfold status_is, set_status. cbn. now rewrite H.
  - now rewrite F.
Qed.

(** X21. [update_failed_payment_log_status_to_refund] touches the status
    of failed rows only: the names and the other columns of all rows are
    as before, a row whose status is not ["Failed"] (a [NULL] one too)
    stays as it is, and a table without failed rows is left unchanged. *)
Theorem update_failed_frame (t : table) :
  map name (snd (update_failed_payment_log_status_to_refund sql_eq t)) = map name t
  /\ map columns (snd (update_failed_payment_log_status_to_refund sql_eq t))
     = map columns t
  /\ (forall i r,
         nth_error t i = Some r ->
         status_is sql_eq "Failed" r = false ->
         nth_error (snd (update_failed_payment_log_status_to_refund sql_eq t)) i
           = Some r)
  /\ (forallb (fun r => negb (status_is sql_eq "Failed" r)) t = true ->
      snd (update_failed_payment_log_status_to_refund sql_eq t) = t).
Proof.
  cbn [snd update_failed_payment_log_status_to_refund].
  split; [apply update_where_frame|]. split; [apply update_where_frame|].
  split.
  - intros i r Hi F. rewrite update_where_nth, Hi. cbn. now rewrite F.
  - apply update_where_none.
Qed.

(** X22. [update_payment_log_status_to_refund] sets the status of the rows
    named [docname] to ["Refund"] whatever it was before, keeps their
    other columns, leaves every other row as it is, and changes nothing
    when no row has that name. *)
Theorem update_by_name_frame (docname : string) (t : table) :
  (forall i r,
      nth_error t i = Some r ->
      name_is sql_eq docname r = true ->
      nth_error (snd (update_payment_log_status_to_refund sql_eq docname t)) i
        = Some {| name := name r; status := Some "Refund"; columns := columns r |})
  /\ (forall i r,
         nth_error t i = Some r ->
         name_is sql_eq docname r = false ->
         nth_error (snd (update_payment_log_status_to_refund sql_eq docname t)) i
           = Some r)
  /\ (forallb (fun r => negb (name_is sql_eq docname r)) t = true ->
      snd (update_payment_log_status_to_refund sql_eq docname t) = t)
  /\ List.length (snd (update_payment_log_status_to_refund sql_eq docname t))
     = List.length t.
Proof.
  cbn [snd update_payment_log_status_to_refund].
  split; [|split; [|split]].
  - intros i r Hi N. rewrite update_where_nth, Hi. cbn. now rewrite N.
  - intros i r Hi N. rewrite update_where_nth, Hi. cbn. now rewrite N.
  - apply update_where_none.
  - unfold update_set_status_where. apply length_map.
Qed.

(** X23. Running an update a second time changes nothing more: always for
    the update by name, and for the update of the failed rows when the
    database does not take ["Refund"] for ["Failed"]. *)
Theorem updates_idempotent (docname : string) (t : table)
    (H : sql_eq "Refund" "Failed" = false) :
  snd (update_payment_log_status_to_refund sql_eq docname
         (snd (update_payment_log_status_to_refund sql_eq docname t)))
  = snd (update_payment_log_status_to_refund sql_eq docname t)
  /\ snd (update_failed_payment_log_status_to_refund sql_eq
            (snd (update_failed_payment_log_status_to_refund sql_eq t)))
     = snd (update_failed_payment_log_status_to_refund sql_eq t).
Proof.
  cbn [snd update_payment_log_status_to_refund
         update_failed_payment_log_status_to_refund].
  unfold update_set_status_where. rewrite !map_map. split; apply map_ext; intros r.
  - destruct (name_is sql_eq docname r) eqn:N.
    + unfold name_is in *. cbn. now rewrite N.
    + now rewrite N.
  - destruct (status_is sql_eq "Failed" r) eqn:F.
    + unfold status_is. cbn. now rewrite H.
    + now rewrite F.
Qed.

(** X24. The two updates can be run in either order: the table that
    results is the same. *)
Theorem updates_commute (docname : string) (t : table) :
  snd (update_failed_payment_log_status_to_refund sql_eq
         (snd (update_payment_log_status_to_refund sql_eq docname t)))
  = snd (update_payment_log_status_to_refund sql_eq docname
           (snd (update_failed_payment_log_status_to_refund sql_eq t))).
Proof.
  cbn [snd update_payment_log_status_to_refund
         update_failed_payment_log_status_to_refund].
  unfold update_set_status_where. rewrite !map_map. apply map_ext. intros r.
  unfold name_is, status_is, set_status.
  destruct (sql_eq (name r) docname) eqn:N; destruct (status r) as [s|] eqn:S;
    cbn; rewrite ?N, ?S;
    try (destruct (sql_eq s "Failed") eqn:F; cbn; rewrite ?N, ?S, ?F; cbn);
    try destruct (sql_eq "Refund" "Failed"); reflexivity.
Qed.

End PaymentLog.

(* ================================================================== *)
(** ** The further theorems at concrete inputs *)


Lemma handle_api_response_validation_error_witness :
  handle_api_response Sample.gateway_down (Some (probe "rzp_test_key" "s3cr3t"))
                      Sample.w0
    = (Raise (ValidationError "Something Bad Happened !"),
       add_log (LogException
                  (ExternalError "ConnectionError" "Max retries exceeded with url: /v1/"))
               (add_call (probe "rzp_test_key" "s3cr3t") Sample.w0))
  /\ ((exists e,
          Sample.gateway_down (calls Sample.w0) (probe "rzp_test_key" "s3cr3t") = Raise e
          /\ "Something Bad Happened !" = "Something Bad Happened !"
          /\ add_log (LogException
                        (ExternalError "ConnectionError"
                                       "Max retries exceeded with url: /v1/"))
                     (add_call (probe "rzp_test_key" "s3cr3t") Sample.w0)
             = add_log (LogException e)
                       (add_call (probe "rzp_test_key" "s3cr3t") Sample.w0))
      \/ (exists r body code descr e,
             Sample.gateway_down (calls Sample.w0) (probe "rzp_test_key" "s3cr3t")
               = Return (IsResponse r)
             /\ json_body r = Some body
             /\ embedded_error body = Some (code, descr)
             /\ body_error body = Some (PyDict e)
             /\ "Something Bad Happened !" = (code ++ "- " ++ descr)%string
             /\ add_log (LogException
                           (ExternalError "ConnectionError"
                                          "Max retries exceeded with url: /v1/"))
                        (add_call (probe "rzp_test_key" "s3cr3t") Sample.w0)
                = add_log (LogValue (PyDict e))
                          (add_call (probe "rzp_test_key" "s3cr3t") Sample.w0))).
Proof.
  split; [reflexivity|].
  exact (handle_api_response_validation_error
           Sample.gateway_down (probe "rzp_test_key" "s3cr3t")
           "Something Bad Happened !" Sample.w0 _ eq_refl).
Defined.

Lemma handle_api_response_body_not_an_object_witness :
  MoreSamples.gateway_502 (calls Sample.w0) (probe "rzp_test_key" "s3cr3t")
    = Return (IsResponse {| status_code := 502; json_body := None |})
  /\ handle_api_response MoreSamples.gateway_502
       (Some (probe "rzp_test_key" "s3cr3t")) Sample.w0
     = (Raise JSONDecodeError, add_call (probe "rzp_test_key" "s3cr3t") Sample.w0).
Proof.
  split; [reflexivity|].
  exact (proj1 (handle_api_response_body_not_an_object
                  MoreSamples.gateway_502 (probe "rzp_test_key" "s3cr3t")
                  {| status_code := 502; json_body := None |} Sample.w0 eq_refl)
               eq_refl).
Defined.

Lemma handle_api_response_malformed_error_witness :
  truthy MoreSamples.error_without_description = true
  /\ embedded_error (PyDict [("error", MoreSamples.error_without_description)]) = None
  /\ exists x,
       handle_api_response MoreSamples.gateway_malformed_error
         (Some (probe "rzp_test_key" "s3cr3t")) Sample.w0
       = (Raise x,
          add_log (LogValue MoreSamples.error_without_description)
                  (add_call (probe "rzp_test_key" "s3cr3t") Sample.w0))
       /\ (x = TypeError "unsupported operand type(s) for +"
           \/ x = AttributeError "object has no attribute 'get'").
Proof.
  split; [reflexivity|]. split; [reflexivity|].
  exact (handle_api_response_malformed_error
           MoreSamples.gateway_malformed_error (probe "rzp_test_key" "s3cr3t")
           {| status_code := 500;
              json_body := Some (PyDict [("error", MoreSamples.error_without_description)]) |}
           (PyDict [("error", MoreSamples.error_without_description)])
           MoreSamples.error_without_description Sample.w0
           eq_refl eq_refl eq_refl eq_refl eq_refl).
Defined.

Lemma init_returns_instance_witness :
  __init__ Sample.gateway_ok "rzp_test_key" "s3cr3t" Sample.w0
    = (Return Sample.self,
       add_client Sample.client (add_call (probe "rzp_test_key" "s3cr3t") Sample.w0))
  /\ rzp_client Sample.self = Some {| client_auth := ("rzp_test_key", "s3cr3t") |}
  /\ sdk_clients (add_client Sample.client
                    (add_call (probe "rzp_test_key" "s3cr3t") Sample.w0))
     = sdk_clients Sample.w0 ++ [{| client_auth := ("rzp_test_key", "s3cr3t") |}].
Proof.
  split; [reflexivity|].
  destruct (init_returns_instance Sample.gateway_ok "rzp_test_key" "s3cr3t"
              Sample.self Sample.w0 _ eq_refl)
    as [_ [_ [_ [Hc [_ [Hs _]]]]]].
  split; [exact Hc | exact Hs].
Defined.

Lemma get_payment_fetches_witness :
  "pay_123" <> ""
  /\ rzp_client Sample.self = Some Sample.client
  /\ get_payment MoreSamples.gateway_sdk Sample.self "pay_123" Sample.w0
     = (Return MoreSamples.payment,
        add_call (payment_fetch Sample.client "pay_123") Sample.w0).
Proof.
  assert (Hid : "pay_123" <> "") by discriminate.
  split; [exact Hid|]. split; [reflexivity|].
  exact (proj1 (proj2 (get_payment_fetches MoreSamples.gateway_sdk Sample.self
                         Sample.client "pay_123" Sample.w0 Hid eq_refl))
               MoreSamples.payment eq_refl).
Defined.

Lemma get_payment_after_init_witness :
  "pay_123" <> ""
  /\ calls (snd (get_payment Sample.gateway_ok Sample.self "pay_123"
                   (add_client Sample.client
                      (add_call (probe "rzp_test_key" "s3cr3t") Sample.w0))))
     = calls Sample.w0
       ++ [probe "rzp_test_key" "s3cr3t";
           payment_fetch {| client_auth := ("rzp_test_key", "s3cr3t") |} "pay_123"].
Proof.
  assert (Hid : "pay_123" <> "") by discriminate.
  split; [exact Hid|].
  exact (get_payment_after_init Sample.gateway_ok "rzp_test_key" "s3cr3t" "pay_123"
           Sample.self Sample.w0 _ eq_refl Hid).
Defined.

Lemma refund_payment_sdk_failure_witness :
  "pay_123" <> ""
  /\ fst (refund_payment Sample.gateway_down Sample.self "pay_123" (Some 900%Z)
                         Sample.w0)
     = Raise (ValidationError "Something Bad Happened !")
  /\ error_log (snd (refund_payment Sample.gateway_down Sample.self "pay_123"
                                    (Some 900%Z) Sample.w0))
     = error_log Sample.w0
       ++ [LogException
             (ExternalError "ConnectionError" "Max retries exceeded with url: /v1/")].
Proof.
  assert (Hid : "pay_123" <> "") by discriminate.
  split; [exact Hid|].
  exact (refund_payment_sdk_failure Sample.gateway_down Sample.self Sample.client
           "pay_123" (Some 900%Z) _ Sample.w0 Hid eq_refl (fun _ => eq_refl)).
Defined.

Lemma create_payment_link_callback_url_witness :
  (0 < 500)%Z
  /\ (exists payload,
         calls (snd (_create_payment_link Sample.gateway_ok Sample.uuid4 Sample.get_url
                       Sample.self (Some 500%Z) "payment_links" MoreSamples.kwargs
                       Sample.w0))
         = calls Sample.w0
           ++ [requests_post "https://api.razorpay.com/v1/payment_links"
                             ("rzp_test_key", "s3cr3t") (PyDict payload)
                             content_type_capital]
         /\ lookup "callback_url" payload = Some (PyStr "https://shop.example.com/paid"))
  /\ (exists payload,
         calls (snd (_create_payment_link Sample.gateway_ok Sample.uuid4 Sample.get_url
                       Sample.self (Some 500%Z) "payment_links" default_kwargs
                       Sample.w0))
         = calls Sample.w0
           ++ [requests_post "https://api.razorpay.com/v1/payment_links"
                             ("rzp_test_key", "s3cr3t") (PyDict payload)
                             content_type_capital]
         /\ lookup "callback_url" payload
            = Some (PyStr "https://shop.example.com/razorpay_payment_status")).
Proof.
  split; [lia|]. split.
  - destruct (create_payment_link_callback_url Sample.gateway_ok Sample.uuid4
                Sample.get_url Sample.self 500%Z "payment_links" MoreSamples.kwargs
                Sample.w0 eq_refl) as [p [C [Given _]]].
    exists p. split; [exact C | apply Given; discriminate].
  - destruct (create_payment_link_callback_url Sample.gateway_ok Sample.uuid4
                Sample.get_url Sample.self 500%Z "payment_links" default_kwargs
                Sample.w0 eq_refl) as [p [C [_ Default]]].
    exists p. split; [exact C | exact (Default eq_refl)].
Defined.

Lemma create_payment_link_reference_id_witness :
  (0 < 500)%Z
  /\ (exists call,
         calls (snd (_create_payment_link Sample.gateway_ok Sample.uuid4 Sample.get_url
                       Sample.self (Some 500%Z) "payment_links" MoreSamples.kwargs
                       Sample.w0))
         = calls Sample.w0 ++ [call]
         /\ sent_reference_id call = Some (PyStr "order-42")
         /\ uuids_drawn (snd (_create_payment_link Sample.gateway_ok Sample.uuid4
                                Sample.get_url Sample.self (Some 500%Z) "payment_links"
                                MoreSamples.kwargs Sample.w0)) = 0%nat)
  /\ (exists call,
         calls (snd (_create_payment_link Sample.gateway_ok Sample.uuid4 Sample.get_url
                       Sample.self (Some 500%Z) "payment_links" default_kwargs
                       Sample.w0))
         = calls Sample.w0 ++ [call]
         /\ sent_reference_id call
            = Some (PyStr "6f1c2a50-7d1e-4c8e-9a57-0d2b6c3e4f10")
         /\ uuids_drawn (snd (_create_payment_link Sample.gateway_ok Sample.uuid4
                                Sample.get_url Sample.self (Some 500%Z) "payment_links"
                                default_kwargs Sample.w0)) = 1%nat).
Proof.
  split; [lia|]. split.
  - destruct (create_payment_link_reference_id Sample.gateway_ok Sample.uuid4
                Sample.get_url Sample.self 500%Z "payment_links" MoreSamples.kwargs
                Sample.w0 eq_refl) as [c [C [Given _]]].
    exists c. split; [exact C | apply Given; discriminate].
  - destruct (create_payment_link_reference_id Sample.gateway_ok Sample.uuid4
                Sample.get_url Sample.self 500%Z "payment_links" default_kwargs
                Sample.w0 eq_refl) as [c [C [_ Drawn]]].
    exists c. split; [exact C | exact (Drawn eq_refl)].
Defined.

Lemma create_payment_link_twice_fresh_reference_witness :
  (0 < 500)%Z /\ (0 < 120)%Z
  /\ exists c1 c2,
       calls (snd (_create_payment_link Sample.gateway_ok Sample.uuid4 Sample.get_url
                     Sample.self (Some 120%Z) "payment_links" default_kwargs
                     (snd (_create_payment_link Sample.gateway_ok Sample.uuid4
                             Sample.get_url Sample.self (Some 500%Z) "payment_links"
                             default_kwargs Sample.w0))))
       = calls Sample.w0 ++ [c1; c2]
       /\ sent_reference_id c1 <> sent_reference_id c2.
Proof.
  split; [lia|]. split; [lia|].
  destruct (create_payment_link_twice_fresh_reference Sample.gateway_ok Sample.uuid4
              Sample.get_url Sample.self 500%Z 120%Z "payment_links" "payment_links"
              default_kwargs default_kwargs Sample.w0 eq_refl eq_refl eq_refl eq_refl)
    as [c1 [c2 [C [_ [_ Fresh]]]]].
  exists c1, c2. split; [exact C | apply Fresh; discriminate].
Defined.

Lemma create_payment_link_body_witness :
  (0 < 500)%Z
  /\ exists payload,
       calls (snd (_create_payment_link Sample.gateway_ok Sample.uuid4 Sample.get_url
                     Sample.self (Some 500%Z) "payment_links" MoreSamples.kwargs
                     Sample.w0))
       = calls Sample.w0
         ++ [requests_post "https://api.razorpay.com/v1/payment_links"
                           ("rzp_test_key", "s3cr3t") (PyDict payload)
                           content_type_capital]
       /\ lookup "currency" payload = Some (PyStr "INR")
       /\ lookup "notes" payload = Some (PyDict [("order", PyStr "42")]).
Proof.
  split; [lia|].
  destruct (create_payment_link_body Sample.gateway_ok Sample.uuid4 Sample.get_url
              Sample.self 500%Z "payment_links" MoreSamples.kwargs Sample.w0 eq_refl)
    as [p [C [_ [Cur [_ [_ [_ [_ [_ Notes]]]]]]]]].
  exists p. split; [exact C|]. split; [exact Cur | exact Notes].
Defined.

Lemma create_payment_link_gateway_error_witness :
  (0 < 500)%Z
  /\ embedded_error Sample.error_body
     = Some ("BAD_REQUEST_ERROR", "amount must be at least INR 1.00")
  /\ fst (_create_payment_link Sample.gateway_http_error Sample.uuid4 Sample.get_url
            Sample.self (Some 500%Z) "payment_links" default_kwargs Sample.w0)
     = Raise (ValidationError "BAD_REQUEST_ERROR- amount must be at least INR 1.00").
Proof.
  split; [lia|]. split; [reflexivity|].
  exact (create_payment_link_gateway_error Sample.gateway_http_error Sample.uuid4
           Sample.get_url Sample.self 500%Z "payment_links" default_kwargs Sample.w0
           {| status_code := 400; json_body := Some Sample.error_body |}
           Sample.error_body "BAD_REQUEST_ERROR" "amount must be at least INR 1.00"
           eq_refl (fun _ _ => eq_refl) eq_refl eq_refl).
Defined.

Lemma get_or_create_payment_link_fetch_ignores_witness :
  "plink_1" <> ""
  /\ get_or_create_payment_link Sample.gateway_ok Sample.uuid4 Sample.get_url
       Sample.self "plink_1" (Some 500%Z) MoreSamples.kwargs Sample.w0
     = get_or_create_payment_link Sample.gateway_ok Sample.uuid4 Sample.get_url
         Sample.self "plink_1" None default_kwargs Sample.w0.
Proof.
  assert (Hid : "plink_1" <> "") by discriminate.
  split; [exact Hid|].
  exact (proj1 (get_or_create_payment_link_fetch_ignores Sample.gateway_ok Sample.uuid4
                  Sample.get_url Sample.self "plink_1" (Some 500%Z) None
                  MoreSamples.kwargs default_kwargs Sample.w0 Hid)).
Defined.

Lemma get_or_create_payment_link_without_id_witness :
  (-3 <= 0)%Z /\ (0 < 500)%Z
  /\ get_or_create_payment_link Sample.gateway_ok Sample.uuid4 Sample.get_url
       Sample.self "" (Some (-3)%Z) default_kwargs Sample.w0
     = (Raise (ValidationError "Amount (INT) is required for creating a payment link !"),
        Sample.w0)
  /\ exists payload,
       calls (snd (get_or_create_payment_link Sample.gateway_ok Sample.uuid4
                     Sample.get_url Sample.self "" (Some 500%Z) default_kwargs
                     Sample.w0))
       = calls Sample.w0
         ++ [requests_post "https://api.razorpay.com/v1/payment_links"
                           ("rzp_test_key", "s3cr3t") (PyDict payload)
                           content_type_capital].
Proof.
  destruct (get_or_create_payment_link_without_id Sample.gateway_ok Sample.uuid4
              Sample.get_url Sample.self default_kwargs Sample.w0)
    as [_ [Rejected Created]].
  assert (Hn : (-3 <= 0)%Z) by lia. assert (Hp : (0 < 500)%Z) by lia.
  split; [exact Hn|]. split; [exact Hp|].
  split; [exact (Rejected (-3)%Z Hn) | exact (Created 500%Z Hp)].
Defined.

Lemma verify_payment_signature_accepts_lower_hex_witness :
  fst (verify_payment_signature
         {| auth := {| api_key := "key"; api_secret := "secret" |};
            base_api_url := "https://api.razorpay.com/v1/"; rzp_client := None |}
         "A" "B" "C" "D"
         "7bad1c84d574d5671f35fabd43ae506643150b4238e74843ae2337c3b2b17eed"
         false Sample.w0) = Return true
  /\ String.length "7bad1c84d574d5671f35fabd43ae506643150b4238e74843ae2337c3b2b17eed"
     = 64%nat
  /\ forallb is_lower_hex
       (list_ascii_of_string
          "7bad1c84d574d5671f35fabd43ae506643150b4238e74843ae2337c3b2b17eed") = true.
Proof.
  assert (H : fst (verify_payment_signature
                     {| auth := {| api_key := "key"; api_secret := "secret" |};
                        base_api_url := "https://api.razorpay.com/v1/";
                        rzp_client := None |}
                     "A" "B" "C" "D"
                     "7bad1c84d574d5671f35fabd43ae506643150b4238e74843ae2337c3b2b17eed"
                     false Sample.w0) = Return true)
    by (vm_compute; reflexivity).
  split; [exact H|].
  exact (verify_payment_signature_accepts_lower_hex _ "A" "B" "C" "D" _ false
           Sample.w0 H).
Defined.

Lemma update_failed_leaves_no_failed_witness :
  String.eqb "Refund" "Failed" = false
  /\ forallb (fun r => negb (RazorpayPaymentLog.status_is String.eqb "Failed" r))
       (snd (RazorpayPaymentLog.update_failed_payment_log_status_to_refund String.eqb
               RazorpayPaymentLog.sample_table)) = true.
Proof.
  split; [reflexivity|].
  exact (update_failed_leaves_no_failed String.eqb RazorpayPaymentLog.sample_table
                                        eq_refl).
Defined.

Lemma update_failed_frame_witness :
  nth_error RazorpayPaymentLog.sample_table 2
    = Some {| RazorpayPaymentLog.name := "RPL-0003";
              RazorpayPaymentLog.status := None;
              RazorpayPaymentLog.columns := [] |}
  /\ nth_error (snd (RazorpayPaymentLog.update_failed_payment_log_status_to_refund
                       String.eqb RazorpayPaymentLog.sample_table)) 2
     = Some {| RazorpayPaymentLog.name := "RPL-0003";
               RazorpayPaymentLog.status := None;
               RazorpayPaymentLog.columns := [] |}.
Proof.
  split; [reflexivity|].
  exact (proj1 (proj2 (proj2 (update_failed_frame String.eqb
                                RazorpayPaymentLog.sample_table)))
               2%nat _ eq_refl eq_refl).
Defined.

Lemma update_by_name_frame_witness :
  nth_error (snd (RazorpayPaymentLog.update_payment_log_status_to_refund String.eqb
                    "RPL-0002" RazorpayPaymentLog.sample_table)) 1
    = Some {| RazorpayPaymentLog.name := "RPL-0002";
              RazorpayPaymentLog.status := Some "Refund";
              RazorpayPaymentLog.columns := [("amount", PyInt 120)] |}
  /\ snd (RazorpayPaymentLog.update_payment_log_status_to_refund String.eqb
            "RPL-0009" RazorpayPaymentLog.sample_table)
     = RazorpayPaymentLog.sample_table.
Proof.
  destruct (update_by_name_frame String.eqb "RPL-0002" RazorpayPaymentLog.sample_table)
    as [Named _].
  destruct (update_by_name_frame String.eqb "RPL-0009" RazorpayPaymentLog.sample_table)
    as [_ [_ [Absent _]]].
  split; [exact (Named 1%nat _ eq_refl eq_refl) | exact (Absent eq_refl)].
Defined.

Lemma updates_idempotent_witness :
  String.eqb "Refund" "Failed" = false
  /\ snd (RazorpayPaymentLog.update_failed_payment_log_status_to_refund String.eqb
            (snd (RazorpayPaymentLog.update_failed_payment_log_status_to_refund
                    String.eqb RazorpayPaymentLog.sample_table)))
     = snd (RazorpayPaymentLog.update_failed_payment_log_status_to_refund String.eqb
              RazorpayPaymentLog.sample_table).
Proof.
  split; [reflexivity|].
  exact (proj2 (updates_idempotent String.eqb "RPL-0001"
                  RazorpayPaymentLog.sample_table eq_refl)).
Defined.
